(** * Tactical BitTorrent connection manager: the poll cycle and its policy

    A shallow embedding of [connection_manager.py].  The program polls the
    network once a minute, classifies the link as good, poor, very poor or
    offline from the round-trip times that [ping] prints, and pushes a
    matching configuration to a Transmission daemon through its RPC
    interface.

    Conventions of the embedding.
    - Text is [string]; the output of [ping] is taken to be ASCII.
    - A Python [float] is an IEEE 754 binary64 number ([pyfloat]), with
      the operations of the specification of floating-point arithmetic
      of the standard library: every sum and quotient is rounded to
      nearest, ties to even, and overflows to an infinity.  Time stamps
      are only stored, never computed with, and are kept as rationals.
    - The exception classes are those derived from [Exception].
      [KeyboardInterrupt] and [SystemExit] are requests to end the process
      that come from outside the cycle; no operation of the cycle raises
      them and they are not part of the model.
    - The outside world of one cycle (what [ping] prints, what the clock
      shows, how the daemon answers) is a read-only record [env]; the
      mutable dictionary [network_state] and the trace of effects are
      threaded through a state-and-exception monad. *)

From Stdlib Require Import ZArith QArith Bool List String Ascii Lia.
From Stdlib Require Import SpecFloat.
Import ListNotations.

Local Open Scope string_scope.
Local Open Scope Z_scope.

(** ** Exceptions *)

Module Exn.

(** The exception classes that the operations of a cycle can raise. *)
Inductive exn : Type :=
| Exception
| SubprocessError          (* subprocess *)
| TimeoutExpired
| CalledProcessError
| OSError                  (* builtins *)
| FileNotFoundError
| PermissionError
| ValueError
| UnicodeDecodeError
| JSONDecodeError          (* json.JSONDecodeError *)
| IndexError
| KeyError
| TypeError
| AttributeError
| RuntimeError
| RequestException         (* requests.exceptions *)
| ReqConnectionError
| ReqTimeout
| ReqInvalidJSONError
| ReqJSONDecodeError.

Definition exn_eqb (a b : exn) : bool :=
  match a, b with
  | Exception, Exception | SubprocessError, SubprocessError
  | TimeoutExpired, TimeoutExpired | CalledProcessError, CalledProcessError
  | OSError, OSError | FileNotFoundError, FileNotFoundError
  | PermissionError, PermissionError | ValueError, ValueError
  | UnicodeDecodeError, UnicodeDecodeError | JSONDecodeError, JSONDecodeError
  | IndexError, IndexError | KeyError, KeyError | TypeError, TypeError
  | AttributeError, AttributeError | RuntimeError, RuntimeError
  | RequestException, RequestException
  | ReqConnectionError, ReqConnectionError | ReqTimeout, ReqTimeout
  | ReqInvalidJSONError, ReqInvalidJSONError
  | ReqJSONDecodeError, ReqJSONDecodeError => true
  | _, _ => false
  end.

(** Direct base classes.  [requests.RequestException] derives from
    [IOError], that is [OSError]; the [JSONDecodeError] of [requests]
    derives both from its own [InvalidJSONError] and from the one of
    [json]. *)
Definition bases (e : exn) : list exn :=
  match e with
  | Exception => []
  | SubprocessError => [Exception]
  | TimeoutExpired => [SubprocessError]
  | CalledProcessError => [SubprocessError]
  | OSError => [Exception]
  | FileNotFoundError => [OSError]
  | PermissionError => [OSError]
  | ValueError => [Exception]
  | UnicodeDecodeError => [ValueError]
  | JSONDecodeError => [ValueError]
  | IndexError => [Exception]
  | KeyError => [Exception]
  | TypeError => [Exception]
  | AttributeError => [Exception]
  | RuntimeError => [Exception]
  | RequestException => [OSError]
  | ReqConnectionError => [RequestException]
  | ReqTimeout => [RequestException]
  | ReqInvalidJSONError => [RequestException]
  | ReqJSONDecodeError => [ReqInvalidJSONError; JSONDecodeError]
  end.

(** [issubclass_fuel n e c]: [c] is reached from [e] in at most [n] steps
    along [bases]. *)
Fixpoint issubclass_fuel (n : nat) (e c : exn) : bool :=
  exn_eqb e c ||
  match n with
  | O => false
  | S n' => existsb (fun b => issubclass_fuel n' b c) (bases e)
  end.

(** The hierarchy above is four levels deep. *)
Definition isinstance (e c : exn) : bool := issubclass_fuel 4 e c.

(** [except (c1, c2, ...)] *)
Definition isinstance_any (e : exn) (cs : list exn) : bool :=
  existsb (isinstance e) cs.

End Exn.
Export Exn.

(** The outcome of a Python expression: a value, or a raised exception. *)
Inductive result (A : Type) : Type :=
| Ok (a : A)
| Raise (e : exn).
Arguments Ok {A} a.
Arguments Raise {A} e.

(** ** Python text operations *)

Module PyStr.

Definition code (c : ascii) : nat := nat_of_ascii c.

(** [str.isspace] on ASCII: TAB, LF, VT, FF, CR, FS, GS, RS, US, SPACE. *)
Definition is_space (c : ascii) : bool :=
  let n := code c in
  ((9 <=? n) && (n <=? 13) || (28 <=? n) && (n <=? 32))%nat.

Definition is_digit (c : ascii) : bool :=
  let n := code c in ((48 <=? n) && (n <=? 57))%nat.

Definition digit_val (c : ascii) : Z := Z.of_nat (code c - 48).

Definition lower (c : ascii) : ascii :=
  let n := code c in
  if ((65 <=? n) && (n <=? 90))%nat then ascii_of_nat (n + 32) else c.

Fixpoint str_lower (s : string) : string :=
  match s with
  | EmptyString => EmptyString
  | String c s' => String (lower c) (str_lower s')
  end.

Fixpoint str_rev (s : string) : string :=
  match s with
  | EmptyString => EmptyString
  | String c s' => str_rev s' ++ String c EmptyString
  end.

Fixpoint lstrip (s : string) : string :=
  match s with
  | String c s' => if is_space c then lstrip s' else s
  | EmptyString => EmptyString
  end.

Definition rstrip (s : string) : string := str_rev (lstrip (str_rev s)).

(** [s.strip()] *)
Definition strip (s : string) : string := rstrip (lstrip s).

(** [sub in s] *)
Fixpoint contains (sub s : string) : bool :=
  if String.prefix sub s then true
  else match s with
       | EmptyString => false
       | String _ s' => contains sub s'
       end.

(** [s.split(sep)] for a non-empty [sep]: the occurrences of [sep] are
    found from the left and do not overlap.  [skip] counts the characters
    of a separator that are still to be passed over; [cur] is the piece
    being collected. *)
Fixpoint split_from (sep s : string) (skip : nat) (cur : string)
  : list string :=
  match s with
  | EmptyString => [cur]
  | String c s' =>
      match skip with
      | S k => split_from sep s' k cur
      | O =>
          if String.prefix sep s
          then cur :: split_from sep s' (String.length sep - 1) EmptyString
          else split_from sep s' 0 (cur ++ String c EmptyString)
      end
  end.

Definition split (sep s : string) : list string :=
  split_from sep s 0 EmptyString.

(** [l[i]] for [i >= 0] *)
Definition getitem {A : Type} (l : list A) (i : nat) : result A :=
  match nth_error l i with
  | Some a => Ok a
  | None => Raise IndexError
  end.

End PyStr.

(** ** Python floats *)

Module PyFloat.
Import PyStr.

(** The precision and the exponent of the infinities of binary64. *)
Definition prec : Z := 53.
Definition emax : Z := 1024.

(** A Python float: a signed zero, a signed infinity, NaN, or a finite
    number [m * 2^e] with its sign. *)
Definition pyfloat : Type := spec_float.

(** [float(z)] for an integer [z]; the integers of the program (0,
    1000, the counts and the thresholds) are all exact. *)
Definition of_Z (z : Z) : pyfloat := binary_normalize prec emax z 0 false.

(** [x + y] *)
Definition add (x y : pyfloat) : pyfloat := SFadd prec emax x y.

(** [x / y] for [y] other than zero *)
Definition div (x y : pyfloat) : pyfloat := SFdiv prec emax x y.

(** [x / n] for a count [n] of at least one *)
Definition div_count (x : pyfloat) (n : nat) : pyfloat :=
  div x (of_Z (Z.of_nat n)).

(** [x < y]; every comparison with NaN is false. *)
Definition ltb (x y : pyfloat) : bool := SFltb x y.

(** [x <= y] *)
Definition leb (x y : pyfloat) : bool := SFleb x y.

(** [sum(l)]: the floats are added from the left, starting from 0,
    each sum rounded, as CPython does up to version 3.11 (from 3.12 on
    [sum] also carries a compensation term for the rounding errors).
    It is used for the round-trip times of one host only, in the last
    branch of the extraction. *)
Definition sum (l : list pyfloat) : pyfloat := fold_left add l (of_Z 0).

(** The exact value of a float that has one. *)
Definition exact (x : pyfloat) : option Q :=
  match x with
  | S754_zero _ => Some 0%Q
  | S754_finite negative m e =>
      let n := if negative then Z.neg m else Z.pos m in
      Some (if 0 <=? e then inject_Z (n * 2 ^ e)
            else Qmake n (Z.to_pos (2 ^ (- e))))
  | _ => None
  end.

(** The grammar of [float(s)]:
<<
    digitpart   ::= digit (["_"] digit)*
    number      ::= [digitpart] "." digitpart | digitpart ["."]
    exponent    ::= ("e" | "E") ["+" | "-"] digitpart
    floatnumber ::= number [exponent]
    floatvalue  ::= ["+" | "-"] (floatnumber | "inf" | "infinity" | "nan")
>>
    with surrounding white space removed and the three words matched
    without regard to case. *)

(** The rest of a [digitpart] after its first digit: the digits read and
    the text left. *)
Fixpoint digitpart_rest (s : string) : list Z * string :=
  match s with
  | String c s' =>
      if is_digit c then
        let (ds, r) := digitpart_rest s' in (digit_val c :: ds, r)
      else if Ascii.eqb c "_" then
        match s' with
        | String d s'' =>
            if is_digit d then
              let (ds, r) := digitpart_rest s'' in (digit_val d :: ds, r)
            else ([], s)
        | EmptyString => ([], s)
        end
      else ([], s)
  | EmptyString => ([], s)
  end.

Definition digitpart (s : string) : option (list Z * string) :=
  match s with
  | String c s' =>
      if is_digit c then
        let (ds, r) := digitpart_rest s' in Some (digit_val c :: ds, r)
      else None
  | EmptyString => None
  end.

(** Integer digits, fraction digits, text left. *)
Definition number (s : string) : option (list Z * list Z * string) :=
  match digitpart s with
  | Some (ip, r) =>
      match r with
      | String "." r' =>
          match digitpart r' with
          | Some (fp, r'') => Some (ip, fp, r'')
          | None => Some (ip, [], r')
          end
      | _ => Some (ip, [], r)
      end
  | None =>
      match s with
      | String "." r' =>
          match digitpart r' with
          | Some (fp, r'') => Some ([], fp, r'')
          | None => None
          end
      | _ => None
      end
  end.

Definition Z_of_digits (ds : list Z) : Z :=
  fold_left (fun acc d => 10 * acc + d) ds 0.

Definition exponent (s : string) : option (Z * string) :=
  match s with
  | String c r =>
      if Ascii.eqb c "e" || Ascii.eqb c "E" then
        let '(sgn, r') :=
          match r with
          | String "+" t => (1, t)
          | String "-" t => (-1, t)
          | _ => (1, r)
          end in
        match digitpart r' with
        | Some (ds, r'') => Some (sgn * Z_of_digits ds, r'')
        | None => None
        end
      else None
  | EmptyString => None
  end.

(** The float nearest to [m * 10^k], for [m >= 0], with the sign given:
    one rounding of the exact value, to nearest and ties to even, as
    the conversion of Python does.  A product is rounded from the
    integer; a quotient is the rounded division of the two integers. *)
Definition decimal (negative : bool) (m k : Z) : pyfloat :=
  match m with
  | Zpos p =>
      if 0 <=? k then
        binary_round prec emax negative (p * Z.to_pos (10 ^ k)) 0
      else
        div (S754_finite negative p 0)
            (S754_finite false (Z.to_pos (10 ^ (- k))) 0)
  | _ => S754_zero negative
  end.

(** The digits of a [floatnumber] and its power of ten. *)
Definition floatnumber (s : string) : option (Z * Z) :=
  match number s with
  | Some (ip, fp, r) =>
      let m := Z_of_digits (ip ++ fp) in
      let f := Z.of_nat (List.length fp) in
      match r with
      | EmptyString => Some (m, - f)
      | _ =>
          match exponent r with
          | Some (e, EmptyString) => Some (m, e - f)
          | _ => None
          end
      end
  | None => None
  end.

(** [float(s)] *)
Definition float (s : string) : result pyfloat :=
  let t := strip s in
  let '(negative, body) :=
    match t with
    | String "+" r => (false, r)
    | String "-" r => (true, r)
    | _ => (false, t)
    end in
  let word := str_lower body in
  if String.eqb word "inf" || String.eqb word "infinity"
  then Ok (S754_infinity negative)
  else if String.eqb word "nan" then Ok S754_nan
  else match floatnumber body with
       | Some (m, k) => Ok (decimal negative m k)
       | None => Raise ValueError
       end.

End PyFloat.

(** ** The pattern [(\d+\.\d+|\d+) ms] *)

Module PyRe.
Import PyStr.

(** The longest run of digits at the head of [s], and the text after it. *)
Fixpoint span_digits (s : string) : string * string :=
  match s with
  | String c s' =>
      if is_digit c then
        let (d, r) := span_digits s' in (String c d, r)
      else (EmptyString, s)
  | EmptyString => (EmptyString, EmptyString)
  end.

Definition nonempty (s : string) : bool :=
  match s with EmptyString => false | _ => true end.

(** A match that starts at the head of [s]: the text of group 1 and the
    length of the whole match.  [\d+] is greedy, and giving back digits
    never helps, since the character after a shorter run is a digit where
    the pattern wants a dot or a space; so each [\d+] takes a whole run.
    The first alternative is tried before the second. *)
Definition match_here (s : string) : option (string * nat) :=
  let (d1, r1) := span_digits s in
  if nonempty d1 then
    let alt1 :=
      match r1 with
      | String "." r2 =>
          let (d2, r3) := span_digits r2 in
          if nonempty d2 && String.prefix " ms" r3
          then Some (d1 ++ "." ++ d2,
                     (String.length d1 + 1 + String.length d2 + 3)%nat)
          else None
      | _ => None
      end in
    match alt1 with
    | Some m => Some m
    | None =>
        if String.prefix " ms" r1
        then Some (d1, (String.length d1 + 3)%nat)
        else None
    end
  else None.

(** [re.findall(r'(\d+\.\d+|\d+) ms', s)]: the matches are searched from
    the left and do not overlap; [skip] counts the characters of the last
    match still to be passed over. *)
Fixpoint findall_from (s : string) (skip : nat) : list string :=
  match s with
  | EmptyString => []
  | String _ s' =>
      match skip with
      | S k => findall_from s' k
      | O =>
          match match_here s with
          | Some (g, n) => g :: findall_from s' (n - 1)
          | None => findall_from s' 0
          end
      end
  end.

Definition findall_ms (s : string) : list string := findall_from s 0.

End PyRe.

(** ** JSON values, as [response.json()] returns them *)

Module Json.
Import PyStr PyFloat.

#[local] Unset Elimination Schemes.
Inductive json : Type :=
| JNull
| JBool (b : bool)
| JInt (z : Z)
| JFloat (x : pyfloat)
| JStr (s : string)
| JArr (l : list json)
| JObj (l : list (string * json)).
#[local] Set Elimination Schemes.

(** [bool(x)] *)
Definition truthy (x : json) : bool :=
  match x with
  | JNull => false
  | JBool b => b
  | JInt z => negb (z =? 0)
  | JFloat x => negb (SFeqb x (of_Z 0))
  | JStr s => negb (String.eqb s "")
  | JArr l => match l with [] => false | _ => true end
  | JObj l => match l with [] => false | _ => true end
  end.

Fixpoint lookup (k : string) (l : list (string * json)) : option json :=
  match l with
  | [] => None
  | (k', v) :: l' => if String.eqb k k' then Some v else lookup k l'
  end.

Definition is_str (k : string) (x : json) : bool :=
  match x with JStr s => String.eqb s k | _ => false end.

(** [k in x] for a string [k] *)
Definition py_in (k : string) (x : json) : result bool :=
  match x with
  | JObj l => Ok (match lookup k l with Some _ => true | None => false end)
  | JArr l => Ok (existsb (is_str k) l)
  | JStr s => Ok (contains k s)
  | _ => Raise TypeError
  end.

(** [x[k]] for a string [k] *)
Definition subscript (x : json) (k : string) : result json :=
  match x with
  | JObj l => match lookup k l with Some v => Ok v | None => Raise KeyError end
  | _ => Raise TypeError
  end.

(** [iter(x)] *)
Definition iterate (x : json) : result (list json) :=
  match x with
  | JArr l => Ok l
  | JObj l => Ok (map (fun kv => JStr (fst kv)) l)
  | JStr s => Ok (map (fun c => JStr (String c EmptyString))
                      (list_ascii_of_string s))
  | _ => Raise TypeError
  end.

(** [t.get(k, 0)] *)
Definition dict_get (t : json) (k : string) : result json :=
  match t with
  | JObj l => Ok (match lookup k l with Some v => v | None => JInt 0 end)
  | _ => Raise AttributeError
  end.

(** [x > 0] *)
Definition positive (x : json) : result bool :=
  match x with
  | JInt z => Ok (0 <? z)
  | JFloat x => Ok (ltb (of_Z 0) x)
  | JBool b => Ok b
  | _ => Raise TypeError
  end.

End Json.

Import PyStr PyFloat PyRe Json.

(** ** Configuration and state *)

Definition CHECK_INTERVAL : Z := 60.
Definition PING_HOSTS : list string := ["1.1.1.1"; "8.8.8.8"].

(** The values of [network_state["connection_quality"]]. *)
Inductive quality : Type := good | poor | very_poor | offline.

(** The values of [network_state["bandwidth_mode"]]. *)
Inductive bandwidth : Type := normal | conservative | minimal.

(** The dictionary [network_state]. *)
Record network_state : Type := mk_network_state {
  last_online : Q;
  is_online : bool;
  connection_quality : quality;
  reconnect_count : Z;
  bandwidth_mode : bandwidth
}.

(** Its value when the module is loaded at time [t0]. *)
Definition initial_state (t0 : Q) : network_state :=
  mk_network_state t0 true good 0 normal.

Definition quality_eqb (a b : quality) : bool :=
  match a, b with
  | good, good | poor, poor | very_poor, very_poor | offline, offline => true
  | _, _ => false
  end.

(** ** Effects *)

Inductive level : Type := DEBUG | INFO | WARNING | ERROR.

(** What a run leaves behind, oldest first.  [Gateway m a] marks a call
    [transmission_rpc_call(m, a)]; [HttpGet] and [HttpPost] are the two
    requests that such a call can send. *)
Inductive event : Type :=
| Ping (count : Z) (host : string)
| Gateway (method : string) (arguments : json)
| HttpGet
| HttpPost (session_id : string) (method : string) (arguments : json)
| Log (lvl : level) (msg : string)
| Sleep (seconds : Z).

(** What [subprocess.run] does with a [ping] command. *)
Inductive run_outcome : Type :=
| Completed (returncode : Z) (stdout : string)
| RunRaises (e : exn).

(** What [requests.get] does: a response with its status and its
    [X-Transmission-Session-Id] header, if it has one. *)
Inductive get_outcome : Type :=
| GetResponse (status_code : Z) (session_header : option string)
| GetRaises (e : exn).

(** What [requests.post] does: a response with its status and with what
    [response.json()] gives on its body. *)
Inductive post_outcome : Type :=
| PostResponse (status_code : Z) (body : result json)
| PostRaises (e : exn).

(** The outside world during one cycle.  Each RPC method is called at most
    once in a cycle, so the answers of the daemon are given per method. *)
Record env : Type := mk_env {
  ping : Z -> string -> run_outcome;
  clock : Q;
  http_get : string -> get_outcome;
  http_post : string -> post_outcome
}.

Record world : Type := mk_world {
  ns : network_state;
  trace : list event
}.

(** A computation reads and writes the world and returns or raises; what
    it wrote before it raised stays written. *)
Definition M (A : Type) : Type := world -> result A * world.

Definition ret {A : Type} (a : A) : M A := fun w => (Ok a, w).

Definition raise {A : Type} (e : exn) : M A := fun w => (Raise e, w).

Definition bind {A B : Type} (c : M A) (k : A -> M B) : M B :=
  fun w =>
    match c w with
    | (Ok a, w') => k a w'
    | (Raise e, w') => (Raise e, w')
    end.

Notation "x <- c ;; k" := (bind c (fun x => k))
  (at level 61, c at next level, right associativity).
Notation "' pat <- c ;; k" :=
  (bind c (fun x => match x with pat => k end))
  (at level 61, pat pattern, c at next level, right associativity).
Notation "c ;; k" := (bind c (fun _ => k))
  (at level 61, right associativity).

Definition lift {A : Type} (r : result A) : M A := fun w => (r, w).

(** [try: c except classes: handler] *)
Definition try_except {A : Type} (c : M A) (classes : list exn)
  (handler : exn -> M A) : M A :=
  fun w =>
    match c w with
    | (Ok a, w') => (Ok a, w')
    | (Raise e, w') =>
        if isinstance_any e classes then handler e w' else (Raise e, w')
    end.

Definition emit (ev : event) : M unit :=
  fun w => (Ok tt, mk_world (ns w) (trace w ++ [ev])).

Definition log (lvl : level) (msg : string) : M unit := emit (Log lvl msg).

Definition get_state : M network_state := fun w => (Ok (ns w), w).

Definition put_state (s : network_state) : M unit :=
  fun w => (Ok tt, mk_world s (trace w)).

(** [network_state["connection_quality"]] *)
Definition read_connection_quality : M quality :=
  s <- get_state ;;
  ret (connection_quality s).

(** [network_state["reconnect_count"]] *)
Definition read_reconnect_count : M Z :=
  s <- get_state ;;
  ret (reconnect_count s).

Definition set_last_online (t : Q) : M unit :=
  s <- get_state ;;
  put_state (mk_network_state t (is_online s) (connection_quality s)
               (reconnect_count s) (bandwidth_mode s)).

Definition set_is_online (b : bool) : M unit :=
  s <- get_state ;;
  put_state (mk_network_state (last_online s) b (connection_quality s)
               (reconnect_count s) (bandwidth_mode s)).

Definition set_connection_quality (q : quality) : M unit :=
  s <- get_state ;;
  put_state (mk_network_state (last_online s) (is_online s) q
               (reconnect_count s) (bandwidth_mode s)).

Definition set_reconnect_count (n : Z) : M unit :=
  s <- get_state ;;
  put_state (mk_network_state (last_online s) (is_online s)
               (connection_quality s) n (bandwidth_mode s)).

Definition set_bandwidth_mode (b : bandwidth) : M unit :=
  s <- get_state ;;
  put_state (mk_network_state (last_online s) (is_online s)
               (connection_quality s) (reconnect_count s) b).

(** Sequencing of expressions that may raise but touch no state. *)
Definition rbind {A B : Type} (r : result A) (k : A -> result B) : result B :=
  match r with
  | Ok a => k a
  | Raise e => Raise e
  end.

Notation "'let?' x := r 'in' k" := (rbind r (fun x => k))
  (at level 10, x name, r at level 100, k at level 200).

Fixpoint map_result {A B : Type} (f : A -> result B) (l : list A)
  : result (list B) :=
  match l with
  | [] => Ok []
  | a :: l' =>
      let? b := f a in
      let? bs := map_result f l' in
      Ok (b :: bs)
  end.

(** ** The latency sampler *)

(** The body of the inner [try] of [measure_connection_quality], lines
    121 to 145: the value added to [total_time], or [None] when the
    branch taken adds nothing. *)
Definition parse_ping_output (output : string) : result (option pyfloat) :=
  if contains "min/avg/max" output then
    let? after := getitem (split "min/avg/max" output) 1 in
    let parts := strip after in
    if contains "/" parts then
      let? field := getitem (split "/" parts) 1 in
      let? avg_time := float (strip field) in
      Ok (Some avg_time)
    else Ok None
  else if contains "Average" output then
    let? after := getitem (split "Average =" output) 1 in
    let? before := getitem (split "ms" after) 0 in
    let? avg_time := float (strip before) in
    Ok (Some avg_time)
  else
    let times := findall_ms output in
    match times with
    | [] => Ok None
    | _ =>
        let? time_values := map_result float times in
        Ok (Some (div_count (sum time_values) (List.length time_values)))
    end.

Section Cycle.

Variable E : env.

(** [subprocess.run(["ping", "-c", count, "-W", "2", host], ...)] *)
Definition run_ping (count : Z) (host : string) : M (Z * string) :=
  emit (Ping count host) ;;
  match ping E count host with
  | Completed returncode stdout => ret (returncode, stdout)
  | RunRaises e => raise e
  end.

(** One turn of the loop of [check_network_connectivity]: [true] when the
    turn returns [True], [false] when the loop goes on. *)
Definition check_host (host : string) : M bool :=
  try_except
    ('(returncode, _) <- run_ping 1 host ;;
     ret (returncode =? 0))
    [SubprocessError; TimeoutExpired]
    (fun _ => ret false).

Fixpoint check_hosts (hosts : list string) : M bool :=
  match hosts with
  | [] => ret false
  | host :: rest =>
      found <- check_host host ;;
      if found then ret true else check_hosts rest
  end.

Definition check_network_connectivity : M bool := check_hosts PING_HOSTS.

(** One turn of the loop of [measure_connection_quality], on the pair
    ([total_time], [successful_pings]). *)
Definition measure_host (acc : pyfloat * nat) (host : string)
  : M (pyfloat * nat) :=
  let '(total_time, successful_pings) := acc in
  try_except
    ('(returncode, output) <- run_ping 3 host ;;
     if returncode =? 0 then
       try_except
         (sample <- lift (parse_ping_output output) ;;
          match sample with
          | Some avg_time =>
              ret (add total_time avg_time, S successful_pings)
          | None => ret acc
          end)
         [ValueError; IndexError]
         (fun _ =>
            log WARNING "Could not parse ping output" ;;
            log DEBUG "Ping output was" ;;
            ret (add total_time (of_Z 1000), S successful_pings))
     else ret acc)
    [SubprocessError; TimeoutExpired]
    (fun _ =>
       log WARNING "Ping to host failed" ;;
       ret acc).

Fixpoint measure_hosts (acc : pyfloat * nat) (hosts : list string)
  : M (pyfloat * nat) :=
  match hosts with
  | [] => ret acc
  | host :: rest =>
      acc' <- measure_host acc host ;;
      measure_hosts acc' rest
  end.

(** Lines 156 to 167: the tier of a finished sampling. *)
Definition classify (acc : pyfloat * nat) : M quality :=
  let '(total_time, successful_pings) := acc in
  match successful_pings with
  | O => ret offline
  | S _ =>
      let avg_ping := div_count total_time successful_pings in
      log INFO "Average ping time" ;;
      if ltb avg_ping (of_Z 200) then ret good
      else if ltb avg_ping (of_Z 500) then ret poor
      else ret very_poor
  end.

Definition measure_connection_quality : M quality :=
  acc <- measure_hosts (of_Z 0, O) PING_HOSTS ;;
  classify acc.

(** ** The gateway to the daemon *)

Definition get_transmission_session_id (method : string) : M string :=
  returned <-
    try_except
      (emit HttpGet ;;
       match http_get E method with
       | GetRaises e => raise e
       | GetResponse status_code session_header =>
           if status_code =? 409 then
             ret (Some (match session_header with
                        | Some h => h
                        | None => ""
                        end))
           else ret None
       end)
      [RequestException]
      (fun _ => log ERROR "Failed to get session ID" ;; ret None) ;;
  match returned with
  | Some session_id => ret session_id
  | None => ret ""
  end.

(** [transmission_rpc_call(method, arguments)], with [arguments] already
    replaced by [{}] when it is [None]; the result [None] is [JNull]. *)
Definition transmission_rpc_call (method : string) (arguments : json)
  : M json :=
  emit (Gateway method arguments) ;;
  session_id <- get_transmission_session_id method ;;
  if String.eqb session_id "" then
    log ERROR "Could not get Transmission session ID" ;;
    ret JNull
  else
    returned <-
      try_except
        (emit (HttpPost session_id method arguments) ;;
         match http_post E method with
         | PostRaises e => raise e
         | PostResponse status_code body =>
             if status_code =? 200 then
               j <- lift body ;;
               ret (Some j)
             else
               log ERROR "RPC call failed with status" ;;
               ret None
         end)
        [RequestException]
        (fun _ => log ERROR "RPC request failed" ;; ret None) ;;
    match returned with
    | Some j => ret j
    | None => ret JNull
    end.

Definition pause_all_torrents : M unit :=
  transmission_rpc_call "torrent-stop" (JObj []) ;;
  log INFO "Paused all torrents due to network being offline".

Definition resume_all_torrents : M unit :=
  transmission_rpc_call "torrent-start" (JObj []) ;;
  log INFO "Resumed torrents after network reconnection".

(** The dictionary [settings] that each branch of
    [adjust_transmission_settings] builds. *)
Definition settings_of (connection_quality : quality) : json :=
  match connection_quality with
  | offline =>
      JObj [("alt-speed-enabled", JBool true);
            ("alt-speed-down", JInt 10);
            ("alt-speed-up", JInt 1);
            ("download-queue-size", JInt 1);
            ("peer-limit-global", JInt 20);
            ("peer-limit-per-torrent", JInt 5)]
  | very_poor =>
      JObj [("alt-speed-enabled", JBool true);
            ("alt-speed-down", JInt 20);
            ("alt-speed-up", JInt 2);
            ("download-queue-size", JInt 1);
            ("peer-limit-global", JInt 30);
            ("peer-limit-per-torrent", JInt 10)]
  | poor =>
      JObj [("alt-speed-enabled", JBool true);
            ("alt-speed-down", JInt 50);
            ("alt-speed-up", JInt 5);
            ("download-queue-size", JInt 2);
            ("peer-limit-global", JInt 50);
            ("peer-limit-per-torrent", JInt 15)]
  | good =>
      JObj [("alt-speed-enabled", JBool false);
            ("download-queue-size", JInt 3);
            ("peer-limit-global", JInt 100);
            ("peer-limit-per-torrent", JInt 30)]
  end.

Definition adjust_transmission_settings (connection_quality : quality)
  : M unit :=
  settings <-
    match connection_quality with
    | offline =>
        pause_all_torrents ;;
        set_bandwidth_mode minimal ;;
        ret (settings_of offline)
    | very_poor =>
        set_bandwidth_mode minimal ;;
        ret (settings_of very_poor)
    | poor =>
        set_bandwidth_mode conservative ;;
        ret (settings_of poor)
    | good =>
        set_bandwidth_mode normal ;;
        recorded <- read_connection_quality ;;
        (if quality_eqb recorded offline
         then resume_all_torrents
         else ret tt) ;;
        ret (settings_of good)
    end ;;
  if truthy settings then
    transmission_rpc_call "session-set" settings ;;
    log INFO "Adjusted settings"
  else ret tt.

Definition torrent_fields : json :=
  JObj [("fields",
         JArr [JStr "id"; JStr "name"; JStr "status"; JStr "downloadDir";
               JStr "percentDone"; JStr "rateDownload"; JStr "rateUpload"])].

Definition get_torrent_list : M json :=
  response <- transmission_rpc_call "torrent-get" torrent_fields ;;
  found <-
    lift (if truthy response then
            let? has_arguments := py_in "arguments" response in
            if has_arguments then
              let? arguments := subscript response "arguments" in
              let? has_torrents := py_in "torrents" arguments in
              if has_torrents then
                let? arguments' := subscript response "arguments" in
                let? torrents := subscript arguments' "torrents" in
                Ok (Some torrents)
              else Ok None
            else Ok None
          else Ok None) ;;
  match found with
  | Some torrents => ret torrents
  | None => ret (JArr [])
  end.

(** [sum(1 for t in torrents if t.get(key, 0) > 0)] *)
Definition count_active (key : string) (torrents : json) : result nat :=
  let? items := iterate torrents in
  let? flags := map_result (fun t => let? rate := dict_get t key in
                                     positive rate) items in
  Ok (List.length (filter (fun b => b) flags)).

(** ** The poll cycle *)

(** The body of the [try] of [main], lines 258 to 289. *)
Definition cycle_body : M unit :=
  online <- check_network_connectivity ;;
  if online then
    connection_quality <- measure_connection_quality ;;
    set_is_online true ;;
    set_last_online (clock E) ;;
    set_connection_quality connection_quality ;;
    set_reconnect_count 0 ;;
    log INFO "Network status" ;;
    adjust_transmission_settings connection_quality ;;
    torrents <- get_torrent_list ;;
    active_downloads <- lift (count_active "rateDownload" torrents) ;;
    active_uploads <- lift (count_active "rateUpload" torrents) ;;
    log INFO "Active torrents"
  else
    set_is_online false ;;
    set_connection_quality offline ;;
    n <- read_reconnect_count ;;
    set_reconnect_count (n + 1) ;;
    log WARNING "Network is offline" ;;
    adjust_transmission_settings offline.

(** One turn of the [while True] of [main]. *)
Definition cycle : M unit :=
  try_except cycle_body [Exception]
    (fun _ => log ERROR "Error in connection manager") ;;
  emit (Sleep CHECK_INTERVAL).

End Cycle.

(** The first turns of the loop, one environment per turn.  The result
    [Ok tt] says that the loop is still running after them, [Raise e] that
    an exception [e] has left it. *)
Fixpoint run_cycles (envs : list env) : M unit :=
  match envs with
  | [] => ret tt
  | E :: rest => cycle E ;; run_cycles rest
  end.

Definition main (envs : list env) : M unit :=
  log INFO "Starting Tactical BitTorrent Connection Manager" ;;
  emit (Sleep 10) ;;
  run_cycles envs.

(** ** Observations on runs *)

(** The calls of [transmission_rpc_call] in a trace, in order. *)
Definition gateway_calls (tr : list event) : list (string * json) :=
  flat_map (fun ev => match ev with
                      | Gateway method arguments => [(method, arguments)]
                      | _ => []
                      end) tr.

(** The numbers of seconds slept in a trace, in order. *)
Definition sleeps (tr : list event) : list Z :=
  flat_map (fun ev => match ev with Sleep n => [n] | _ => [] end) tr.

(** The records of a given level in a trace, in order. *)
Definition logged (lvl : level) (tr : list event) : list string :=
  flat_map (fun ev => match ev with
                      | Log l msg =>
                          match l, lvl with
                          | DEBUG, DEBUG | INFO, INFO
                          | WARNING, WARNING | ERROR, ERROR => [msg]
                          | _, _ => []
                          end
                      | _ => []
                      end) tr.

Definition count_method (method : string) (calls : list (string * json))
  : nat :=
  List.length (filter (fun c => String.eqb (fst c) method) calls).

(** A world to run from when only the outcome matters. *)
Definition blank : world := mk_world (initial_state 0) [].

(** What the pre-check of a cycle finds. *)
Definition precheck (E : env) : result bool :=
  fst (check_network_connectivity E blank).

(** What the full measurement of a cycle finds. *)
Definition measured (E : env) : result quality :=
  fst (measure_connection_quality E blank).

(** The tier that a cycle records in [network_state], if it gets that
    far: [offline] when the pre-check fails, the measured tier when it
    passes. *)
Definition classification (E : env) : option quality :=
  match precheck E with
  | Ok false => Some offline
  | Ok true =>
      match measured E with
      | Ok q => Some q
      | Raise _ => None
      end
  | Raise _ => None
  end.

(** What the daemon's gateway answers to a method in a cycle. *)
Definition gateway_reply (E : env) (method : string) : result json :=
  fst (transmission_rpc_call E method (JObj []) blank).

(** Every call of the gateway in the cycle comes back with [None]. *)
Definition gateway_fails (E : env) : Prop :=
  forall method arguments w,
    fst (transmission_rpc_call E method arguments w) = Ok JNull.

(** What one turn of the loop of [measure_connection_quality] adds to
    [total_time] for a host: [Ok (Some t)] for a sample [t], [Ok None]
    when the turn leaves the totals alone, [Raise e] when [e] leaves the
    loop. *)
Definition sample (E : env) (host : string) : result (option pyfloat) :=
  match ping E 3 host with
  | RunRaises e =>
      if isinstance_any e [SubprocessError; TimeoutExpired]
      then Ok None else Raise e
  | Completed returncode output =>
      if returncode =? 0 then
        match parse_ping_output output with
        | Ok o => Ok o
        | Raise e =>
            if isinstance_any e [ValueError; IndexError]
            then Ok (Some (of_Z 1000)) else Raise e
        end
      else Ok None
  end.

Fixpoint samples_of (E : env) (hosts : list string)
  : result (list pyfloat) :=
  match hosts with
  | [] => Ok []
  | host :: rest =>
      let? o := sample E host in
      let? xs := samples_of E rest in
      Ok (match o with Some t => t :: xs | None => xs end)
  end.

(** The latency samples of a cycle, one per host that gave one. *)
Definition samples (E : env) : result (list pyfloat) :=
  samples_of E PING_HOSTS.

(** The arithmetic mean of a non-empty list of samples. *)
Definition mean (xs : list pyfloat) : pyfloat :=
  div_count (fold_left add xs (of_Z 0)) (List.length xs).

(** The network states after each of the cycles of a run. *)
Fixpoint history (envs : list env) (w : world) : list network_state :=
  match envs with
  | [] => []
  | E :: rest =>
      let w' := snd (cycle E w) in
      ns w' :: history rest w'
  end.

(** A computation that leaves [network_state] alone and whose result and
    events do not depend on the world it starts from. *)
Definition yields {A : Type} (c : M A) (r : result A) (evs : list event)
  : Prop :=
  forall w, c w = (r, mk_world (ns w) (trace w ++ evs)).

(** [s] with [bandwidth_mode] set to [b]. *)
Definition with_mode (b : bandwidth) (s : network_state) : network_state :=
  mk_network_state (last_online s) (is_online s) (connection_quality s)
    (reconnect_count s) b.

(** The outcome of a statement whose value is dropped. *)
Definition discard {A : Type} (r : result A) : result unit :=
  match r with
  | Ok _ => Ok tt
  | Raise e => Raise e
  end.

(** What [adjust_transmission_settings q] comes to inside a cycle, where
    the tier [q] it is given has just been recorded in [network_state]
    (lemma [adjust_in_cycle]): its outcome, its calls of the gateway and
    the state it leaves. *)
Definition adjust_result (E : env) (q : quality) : result unit :=
  match q with
  | offline =>
      match gateway_reply E "torrent-stop" with
      | Ok _ => discard (gateway_reply E "session-set")
      | Raise e => Raise e
      end
  | _ => discard (gateway_reply E "session-set")
  end.

Definition adjust_calls (E : env) (q : quality) : list (string * json) :=
  match q with
  | offline =>
      ("torrent-stop", JObj []) ::
      match gateway_reply E "torrent-stop" with
      | Ok _ => [("session-set", settings_of offline)]
      | Raise _ => []
      end
  | _ => [("session-set", settings_of q)]
  end.

Definition adjust_state (E : env) (q : quality) (s : network_state)
  : network_state :=
  match q, gateway_reply E "torrent-stop" with
  | offline, Raise _ => s
  | offline, Ok _ => with_mode minimal s
  | very_poor, _ => with_mode minimal s
  | poor, _ => with_mode conservative s
  | good, _ => with_mode normal s
  end.

(** What a whole cycle comes to (lemma [cycle_spec]): the state it
    leaves and its calls of the gateway. *)
Definition cycle_state (E : env) (s : network_state) : network_state :=
  match precheck E with
  | Ok false =>
      adjust_state E offline
        (mk_network_state (last_online s) false offline
           (reconnect_count s + 1) (bandwidth_mode s))
  | Ok true =>
      match measured E with
      | Ok q =>
          adjust_state E q
            (mk_network_state (clock E) true q 0 (bandwidth_mode s))
      | Raise _ => s
      end
  | Raise _ => s
  end.

Definition cycle_calls (E : env) : list (string * json) :=
  match precheck E with
  | Ok false => adjust_calls E offline
  | Ok true =>
      match measured E with
      | Ok q =>
          (adjust_calls E q ++
           match adjust_result E q with
           | Ok _ => [("torrent-get", torrent_fields)]
           | Raise _ => []
           end)%list
      | Raise _ => []
      end
  | Raise _ => []
  end.

(** ** The specification's words, for comparison *)

Module Spec.

(** The invariant of section 3: Offline and VeryPoor map to Minimal, Poor
    to Conservative, Good to Normal. *)
Definition bandwidth_of (q : quality) : bandwidth :=
  match q with
  | offline | very_poor => minimal
  | poor => conservative
  | good => normal
  end.

(** The classifier of section 4.2, on the usable samples of a cycle:
    Offline when there is none; otherwise Good when their mean is below
    200, Poor when it is below 500, VeryPoor from 500 on. *)
Definition classifier (xs : list pyfloat) : quality :=
  match xs with
  | [] => offline
  | _ =>
      if ltb (mean xs) (of_Z 200) then good
      else if ltb (mean xs) (of_Z 500) then poor
      else very_poor
  end.

(** A row of the policy table of section 4.3; a dash is [None]. *)
Record PolicySettings : Type := mk_policy {
  alt_speed : bool;
  down_cap : option Z;
  up_cap : option Z;
  queue_size : Z;
  global_peers : Z;
  per_torrent_peers : Z
}.

Definition policy_table (q : quality) : PolicySettings :=
  match q with
  | good => mk_policy false None None 3 100 30
  | poor => mk_policy true (Some 50) (Some 5) 2 50 15
  | very_poor => mk_policy true (Some 20) (Some 2) 1 30 10
  | offline => mk_policy true (Some 10) (Some 1) 1 20 5
  end.

Definition optional (key : string) (v : option Z) : list (string * json) :=
  match v with
  | Some z => [(key, JInt z)]
  | None => []
  end.

(** A row as the arguments of [session-set]. *)
Definition arguments (p : PolicySettings) : json :=
  JObj ([("alt-speed-enabled", JBool (alt_speed p))]
        ++ optional "alt-speed-down" (down_cap p)
        ++ optional "alt-speed-up" (up_cap p)
        ++ [("download-queue-size", JInt (queue_size p));
            ("peer-limit-global", JInt (global_peers p));
            ("peer-limit-per-torrent", JInt (per_torrent_peers p))])%list.

End Spec.

(** ** Sample environments *)

Module Sample.

(** A daemon that accepts every call. *)
Definition daemon_get (_ : string) : get_outcome :=
  GetResponse 409 (Some "session-1").

Definition daemon_post (method : string) : post_outcome :=
  if String.eqb method "torrent-get" then
    PostResponse 200
      (Ok (JObj [("arguments",
                  JObj [("torrents",
                         JArr [JObj [("id", JInt 1);
                                     ("rateDownload", JInt 2048);
                                     ("rateUpload", JInt 0)]])]);
                 ("result", JStr "success")]))
  else PostResponse 200 (Ok (JObj [("arguments", JObj []);
                                   ("result", JStr "success")])).

(** A daemon that rejects the credentials: no session id is handed out. *)
Definition unauthorized_get (_ : string) : get_outcome :=
  GetResponse 401 None.

(** The summary that BusyBox [ping] prints, with a given average. *)
Definition busybox (avg : string) : string :=
  "3 packets transmitted, 3 packets received, 0% packet loss
round-trip min/avg/max = 1.000/" ++ avg ++ "/900.000 ms
".

(** The summary that iputils [ping] prints. *)
Definition iputils : string :=
  "3 packets transmitted, 3 received, 0% packet loss, time 2003ms
rtt min/avg/max/mdev = 10.100/12.300/15.000/1.200 ms
".

(** A summary without round-trip times. *)
Definition no_times : string :=
  "3 packets transmitted, 3 received, 0% packet loss, time 2003ms
".

(** Every [ping] exits with the given status and prints the given text. *)
Definition all_pings (returncode : Z) (stdout : string)
  : Z -> string -> run_outcome :=
  fun _ _ => Completed returncode stdout.

(** The single probes of the pre-check succeed; the three-probe
    measurements end as [o] says. *)
Definition reachable_then (o : run_outcome) : Z -> string -> run_outcome :=
  fun count _ => if count =? 1 then Completed 0 "" else o.

Definition online_env (avg : string) : env :=
  mk_env (all_pings 0 (busybox avg)) 1000 daemon_get daemon_post.

Definition good_env : env := online_env "12.300".

(** The first host reports an average just below 200, the second an
    average of 200. *)
Definition rounding_env : env :=
  mk_env (fun _ host =>
            Completed 0 (busybox (if String.eqb host "1.1.1.1"
                                  then "199.99999999999997"
                                  else "200.0")))
    1000 daemon_get daemon_post.

Definition offline_env : env :=
  mk_env (all_pings 1 "") 1000 daemon_get daemon_post.

(** The pre-check passes, then every measurement fails. *)
Definition flapping_env : env :=
  mk_env (reachable_then (Completed 1 "")) 1000 daemon_get daemon_post.

(** Both measurements exit with status 1 and print nothing usable. *)
Definition failed_garbage_env : env :=
  mk_env (reachable_then (Completed 1 "no route to host")) 1000
    daemon_get daemon_post.

Definition iputils_env : env :=
  mk_env (all_pings 0 iputils) 1000 daemon_get daemon_post.

Definition no_times_env : env :=
  mk_env (all_pings 0 no_times) 1000 daemon_get daemon_post.

(** The network is down and the daemon answers [torrent-stop] with
    status 200 and a body that is not JSON, on which [response.json()]
    raises [json.JSONDecodeError]. *)
Definition bad_body_post (method : string) : post_outcome :=
  if String.eqb method "torrent-stop"
  then PostResponse 200 (Raise JSONDecodeError)
  else daemon_post method.

Definition offline_bad_body_env : env :=
  mk_env (all_pings 1 "") 1000 daemon_get bad_body_post.

(** [ping] is not installed. *)
Definition no_ping_env : env :=
  mk_env (fun _ _ => RunRaises FileNotFoundError) 1000
    daemon_get daemon_post.

(** The daemon answers [torrent-get] with a list where a dictionary is
    expected. *)
Definition odd_list_post (method : string) : post_outcome :=
  if String.eqb method "torrent-get"
  then PostResponse 200 (Ok (JObj [("arguments",
                                    JObj [("torrents", JArr [JInt 7])])]))
  else daemon_post method.

Definition odd_list_env : env :=
  mk_env (all_pings 0 (busybox "12.300")) 1000 daemon_get odd_list_post.

(** The daemon answers [torrent-get] with [null] for ["arguments"]. *)
Definition null_arguments_post (method : string) : post_outcome :=
  if String.eqb method "torrent-get"
  then PostResponse 200 (Ok (JObj [("arguments", JNull);
                                   ("result", JStr "success")]))
  else daemon_post method.

Definition null_arguments_env : env :=
  mk_env (all_pings 0 (busybox "12.300")) 1000 daemon_get
    null_arguments_post.

Definition dead_daemon_env (p : Z -> string -> run_outcome) : env :=
  mk_env p 1000 unauthorized_get daemon_post.

(** The link is poor and the daemon hands out no session. *)
Definition poor_dead_daemon_env : env :=
  dead_daemon_env (all_pings 0 (busybox "250.000")).

(** The network is down and the daemon hands out no session. *)
Definition offline_dead_daemon_env : env :=
  dead_daemon_env (all_pings 1 "").

Definition world_of (s : network_state) : world := mk_world s [].

Definition start : world := world_of (initial_state 0).

Definition was_offline : world :=
  world_of (mk_network_state 0 false offline 1 minimal).

End Sample.

(** ** Further observations *)

(** The [ping] commands run in a trace, in order: count and host. *)
Definition pings (tr : list event) : list (Z * string) :=
  flat_map (fun ev => match ev with
                      | Ping count host => [(count, host)]
                      | _ => []
                      end) tr.

(** The HTTP requests sent in a trace, in order. *)
Definition http_requests (tr : list event) : list event :=
  filter (fun ev => match ev with
                    | HttpGet | HttpPost _ _ _ => true
                    | _ => false
                    end) tr.

(** A single probe that lets [check_network_connectivity] go on to the
    next host: a non-zero exit status, or an exception that the loop
    catches. *)
Definition unreachable (o : run_outcome) : bool :=
  match o with
  | Completed returncode _ => negb (returncode =? 0)
  | RunRaises e => isinstance_any e [SubprocessError; TimeoutExpired]
  end.

(** A probe that [measure_connection_quality] gets past: it completes,
    or raises an exception that the loop catches. *)
Definition survivable (o : run_outcome) : bool :=
  match o with
  | Completed _ _ => true
  | RunRaises e => isinstance_any e [SubprocessError; TimeoutExpired]
  end.

(** The rate of a torrent under a key, when the torrent is a dictionary
    and the rate is absent or an integer. *)
Definition integer_rate (key : string) (t : json) : option Z :=
  match t with
  | JObj l =>
      match lookup key l with
      | None => Some 0
      | Some (JInt z) => Some z
      | Some _ => None
      end
  | _ => None
  end.

Definition rate_is_positive (key : string) (t : json) : bool :=
  match integer_rate key t with
  | Some z => 0 <? z
  | None => false
  end.

(** What holds of [network_state] between cycles. *)
Definition consistent (s : network_state) : Prop :=
  0 <= reconnect_count s /\
  (is_online s = true <-> reconnect_count s = 0) /\
  (is_online s = false -> connection_quality s = offline).

(** A string without its last character. *)
Fixpoint chop (s : string) : string :=
  match s with
  | EmptyString => EmptyString
  | String c EmptyString => EmptyString
  | String c s' => String c (chop s')
  end.

(** A computation that adds to the trace no event that [f] shows. *)
Definition adds_nothing {X A : Type} (f : event -> list X) (c : M A)
  : Prop :=
  forall w, flat_map f (trace (snd (c w))) = flat_map f (trace w).

(** The projection behind [sleeps]. *)
Definition sleep_of (ev : event) : list Z :=
  match ev with Sleep n => [n] | _ => [] end.

(** * Properties *)

#[local] Arguments isinstance_any : simpl never.

Ltac run :=
  intro;
  unfold bind, try_except, emit, log, ret, raise, lift, get_state,
    put_state; simpl;
  repeat match goal with
         | H : _ = _ |- _ => rewrite H; simpl
         | H : yields _ _ _ |- _ => rewrite H; simpl
         end;
  rewrite <- ?app_assoc; simpl; try reflexivity.

(** ** The monad *)

Lemma yields_ret {A : Type} (a : A) : yields (ret a) (Ok a) [].
Proof. intros [s tr]. unfold ret. simpl. now rewrite app_nil_r. Qed.

Lemma yields_raise {A : Type} (e : exn) : yields (@raise A e) (Raise e) [].
Proof. intros [s tr]. unfold raise. simpl. now rewrite app_nil_r. Qed.

Lemma yields_lift {A : Type} (r : result A) : yields (lift r) r [].
Proof. intros [s tr]. unfold lift. simpl. now rewrite app_nil_r. Qed.

Lemma yields_emit (ev : event) : yields (emit ev) (Ok tt) [ev].
Proof. intros w. reflexivity. Qed.

Lemma yields_bind_ok {A B : Type} (c : M A) (k : A -> M B) a r evs1 evs2 :
  yields c (Ok a) evs1 -> yields (k a) r evs2 ->
  yields (bind c k) r (evs1 ++ evs2).
Proof.
  intros Hc Hk w. unfold bind. rewrite Hc, Hk. simpl.
  now rewrite app_assoc.
Qed.

Lemma yields_bind_raise {A B : Type} (c : M A) (k : A -> M B) e evs :
  yields c (Raise e) evs -> yields (bind c k) (Raise e) evs.
Proof. intros Hc w. unfold bind. now rewrite Hc. Qed.

Lemma yields_try_ok {A : Type} (c : M A) cls h (a : A) evs :
  yields c (Ok a) evs -> yields (try_except c cls h) (Ok a) evs.
Proof. intros Hc w. unfold try_except. now rewrite Hc. Qed.

Lemma yields_try_caught {A : Type} (c : M A) cls h e (r : result A) evs1 evs2 :
  yields c (Raise e) evs1 -> isinstance_any e cls = true ->
  yields (h e) r evs2 ->
  yields (try_except c cls h) r (evs1 ++ evs2).
Proof.
  intros Hc Hi Hh w. unfold try_except. rewrite Hc, Hi, Hh. simpl.
  now rewrite app_assoc.
Qed.

Lemma yields_try_uncaught {A : Type} (c : M A) cls h e evs :
  yields c (Raise e) evs -> isinstance_any e cls = false ->
  yields (try_except c cls h) (Raise e) evs.
Proof. intros Hc Hi w. unfold try_except. now rewrite Hc, Hi. Qed.

Lemma bind_ok {A B : Type} (c : M A) (k : A -> M B) w a w' :
  c w = (Ok a, w') -> bind c k w = k a w'.
Proof. intros H. unfold bind. now rewrite H. Qed.

Lemma bind_raise {A B : Type} (c : M A) (k : A -> M B) w e w' :
  c w = (Raise e, w') -> bind c k w = (Raise e, w').
Proof. intros H. unfold bind. now rewrite H. Qed.

Lemma yields_fst {A : Type} (c : M A) r evs w :
  yields c r evs -> fst (c w) = r.
Proof. intros H. now rewrite H. Qed.

Lemma yields_unique {A : Type} (c : M A) r r' evs evs' :
  yields c r evs -> yields c r' evs' -> r = r' /\ evs = evs'.
Proof.
  intros H H'. specialize (H blank). rewrite (H' blank) in H.
  inversion H. auto.
Qed.

Lemma gateway_calls_app (l1 l2 : list event) :
  gateway_calls (l1 ++ l2) = (gateway_calls l1 ++ gateway_calls l2)%list.
Proof. apply flat_map_app. Qed.

(** Every exception of the model is an [Exception]. *)
Lemma isinstance_Exception (e : exn) : isinstance_any e [Exception] = true.
Proof. destruct e; reflexivity. Qed.

(** ** The gateway *)

(** Unfolds the monad and closes a goal [yields c r evs] once the
    branches of [c] are decided. *)
Lemma session_id_yields (E : env) (method : string) :
  exists r evs,
    yields (get_transmission_session_id E method) r evs /\
    gateway_calls evs = [].
Proof.
  unfold get_transmission_session_id.
  destruct (http_get E method) as [status hdr | e].
  - destruct (status =? 409) eqn:Hs.
    + exists (Ok (match hdr with Some h => h | None => "" end)), [HttpGet].
      split; [run | reflexivity].
    + exists (Ok ""), [HttpGet]. split; [run | reflexivity].
  - destruct (isinstance_any e [RequestException]) eqn:Hi.
    + exists (Ok ""), [HttpGet; Log ERROR "Failed to get session ID"].
      split; [run | reflexivity].
    + exists (Raise e), [HttpGet]. split; [run | reflexivity].
Qed.

Lemma rpc_shape (E : env) (method : string) :
  exists r, forall arguments, exists evs,
    yields (transmission_rpc_call E method arguments) r
      (Gateway method arguments :: evs) /\
    gateway_calls evs = [].
Proof.
  destruct (session_id_yields E method) as (rs & evs_s & Hs & Hg).
  unfold transmission_rpc_call.
  destruct rs as [session_id | e].
  - destruct (String.eqb session_id "") eqn:Hempty.
    + exists (Ok JNull). intros arguments.
      exists (evs_s ++ [Log ERROR "Could not get Transmission session ID"])%list.
      split; [run | now rewrite gateway_calls_app, Hg].
    + destruct (http_post E method) as [status body | e].
      * destruct (status =? 200) eqn:H200.
        -- destruct body as [j | e].
           ++ exists (Ok j). intros arguments.
              exists (evs_s ++ [HttpPost session_id method arguments])%list.
              split; [run | now rewrite gateway_calls_app, Hg].
           ++ destruct (isinstance_any e [RequestException]) eqn:Hi.
              ** exists (Ok JNull). intros arguments.
                 exists (evs_s ++ [HttpPost session_id method arguments;
                                   Log ERROR "RPC request failed"])%list.
                 split; [run | now rewrite gateway_calls_app, Hg].
              ** exists (Raise e). intros arguments.
                 exists (evs_s ++ [HttpPost session_id method arguments])%list.
                 split; [run | now rewrite gateway_calls_app, Hg].
        -- exists (Ok JNull). intros arguments.
           exists (evs_s ++ [HttpPost session_id method arguments;
                             Log ERROR "RPC call failed with status"])%list.
           split; [run | now rewrite gateway_calls_app, Hg].
      * destruct (isinstance_any e [RequestException]) eqn:Hi.
        -- exists (Ok JNull). intros arguments.
           exists (evs_s ++ [HttpPost session_id method arguments;
                             Log ERROR "RPC request failed"])%list.
           split; [run | now rewrite gateway_calls_app, Hg].
        -- exists (Raise e). intros arguments.
           exists (evs_s ++ [HttpPost session_id method arguments])%list.
           split; [run | now rewrite gateway_calls_app, Hg].
  - exists (Raise e). intros arguments. exists evs_s.
    split; [run | exact Hg].
Qed.

Lemma rpc_yields (E : env) (method : string) (arguments : json) :
  exists evs,
    yields (transmission_rpc_call E method arguments)
      (gateway_reply E method) (Gateway method arguments :: evs) /\
    gateway_calls evs = [].
Proof.
  destruct (rpc_shape E method) as (r & H).
  destruct (H arguments) as (evs & Hy & Hg).
  destruct (H (JObj [])) as (evs0 & Hy0 & _).
  exists evs. split; [| exact Hg].
  unfold gateway_reply. now rewrite (yields_fst _ _ _ blank Hy0).
Qed.

Lemma pause_yields (E : env) :
  exists evs,
    yields (pause_all_torrents E)
      (discard (gateway_reply E "torrent-stop")) evs /\
    gateway_calls evs = [("torrent-stop", JObj [])].
Proof.
  destruct (rpc_yields E "torrent-stop" (JObj [])) as (evs & Hy & Hg).
  unfold pause_all_torrents.
  destruct (gateway_reply E "torrent-stop") as [j | e].
  - eexists. split.
    + eapply yields_bind_ok; [exact Hy | apply yields_emit].
    + rewrite gateway_calls_app. simpl. now rewrite Hg.
  - eexists. split.
    + eapply yields_bind_raise. exact Hy.
    + simpl. now rewrite Hg.
Qed.

Lemma resume_yields (E : env) :
  exists evs,
    yields (resume_all_torrents E)
      (discard (gateway_reply E "torrent-start")) evs /\
    gateway_calls evs = [("torrent-start", JObj [])].
Proof.
  destruct (rpc_yields E "torrent-start" (JObj [])) as (evs & Hy & Hg).
  unfold resume_all_torrents.
  destruct (gateway_reply E "torrent-start") as [j | e].
  - eexists. split.
    + eapply yields_bind_ok; [exact Hy | apply yields_emit].
    + rewrite gateway_calls_app. simpl. now rewrite Hg.
  - eexists. split.
    + eapply yields_bind_raise. exact Hy.
    + simpl. now rewrite Hg.
Qed.

(** The last step of [adjust_transmission_settings]: the settings of a
    tier are never empty, so they are always sent. *)
Lemma apply_settings_yields (E : env) (q : quality) :
  exists evs,
    yields (if truthy (settings_of q)
            then transmission_rpc_call E "session-set" (settings_of q) ;;
                 log INFO "Adjusted settings"
            else ret tt)
      (discard (gateway_reply E "session-set")) evs /\
    gateway_calls evs = [("session-set", settings_of q)].
Proof.
  destruct (rpc_yields E "session-set" (settings_of q)) as (evs & Hy & Hg).
  replace (truthy (settings_of q)) with true by (now destruct q).
  destruct (gateway_reply E "session-set") as [j | e].
  - eexists. split.
    + eapply yields_bind_ok; [exact Hy | apply yields_emit].
    + rewrite gateway_calls_app. simpl. now rewrite Hg.
  - eexists. split.
    + eapply yields_bind_raise. exact Hy.
    + simpl. now rewrite Hg.
Qed.

Lemma adjust_spec (E : env) (q : quality) (w : world) :
  exists evs,
    adjust_transmission_settings E q w =
      (match q with
       | offline =>
           match gateway_reply E "torrent-stop" with
           | Ok _ => discard (gateway_reply E "session-set")
           | Raise e => Raise e
           end
       | good =>
           if quality_eqb (connection_quality (ns w)) offline then
             match gateway_reply E "torrent-start" with
             | Ok _ => discard (gateway_reply E "session-set")
             | Raise e => Raise e
             end
           else discard (gateway_reply E "session-set")
       | _ => discard (gateway_reply E "session-set")
       end,
       mk_world
         (match q, gateway_reply E "torrent-stop" with
          | offline, Raise _ => ns w
          | _, _ => with_mode (Spec.bandwidth_of q) (ns w)
          end)
         (trace w ++ evs)) /\
    gateway_calls evs =
      match q with
      | offline =>
          ("torrent-stop", JObj []) ::
          match gateway_reply E "torrent-stop" with
          | Ok _ => [("session-set", settings_of offline)]
          | Raise _ => []
          end
      | good =>
          if quality_eqb (connection_quality (ns w)) offline then
            ("torrent-start", JObj []) ::
            match gateway_reply E "torrent-start" with
            | Ok _ => [("session-set", settings_of good)]
            | Raise _ => []
            end
          else [("session-set", settings_of good)]
      | _ => [("session-set", settings_of q)]
      end.
Proof.
  destruct (pause_yields E) as (evp & Hp & Hgp).
  destruct (resume_yields E) as (evr & Hr & Hgr).
  destruct (apply_settings_yields E q) as (evs & Hs & Hgs).
  unfold adjust_transmission_settings.
  destruct q; cbv iota.
  - (* good *)
    destruct (quality_eqb (connection_quality (ns w)) offline) eqn:Hq.
    + destruct (gateway_reply E "torrent-start") as [j | e]; simpl in Hr.
      * exists (evr ++ evs)%list. split.
        -- erewrite bind_ok.
           2:{ unfold bind, set_bandwidth_mode, read_connection_quality,
                 get_state, put_state, ret. simpl. rewrite Hq, Hr.
               reflexivity. }
           rewrite Hs. simpl. now rewrite app_assoc.
        -- rewrite gateway_calls_app, Hgr, Hgs. reflexivity.
      * exists evr. split; [| exact Hgr].
        erewrite bind_raise; [reflexivity |].
        unfold bind, set_bandwidth_mode, read_connection_quality,
          get_state, put_state, ret. simpl. rewrite Hq, Hr.
        reflexivity.
    + exists evs. split; [| exact Hgs].
      erewrite bind_ok.
      2:{ unfold bind, set_bandwidth_mode, read_connection_quality,
            get_state, put_state, ret. simpl. rewrite Hq.
          reflexivity. }
      rewrite Hs. reflexivity.
  - (* poor *)
    exists evs. split; [| exact Hgs].
    erewrite bind_ok by reflexivity. rewrite Hs. reflexivity.
  - (* very_poor *)
    exists evs. split; [| exact Hgs].
    erewrite bind_ok by reflexivity. rewrite Hs. reflexivity.
  - (* offline *)
    destruct (gateway_reply E "torrent-stop") as [j | e]; simpl in Hp.
    + exists (evp ++ evs)%list. split.
      * erewrite bind_ok.
        2:{ unfold bind, set_bandwidth_mode, get_state, put_state, ret.
            rewrite Hp. reflexivity. }
        rewrite Hs. simpl. now rewrite app_assoc.
      * rewrite gateway_calls_app, Hgp, Hgs. reflexivity.
    + exists evp. split; [| exact Hgp].
      erewrite bind_raise; [reflexivity |].
      unfold bind. rewrite Hp. reflexivity.
Qed.

(** ** The probes *)

Lemma check_host_yields (E : env) (host : string) :
  exists r evs, yields (check_host E host) r evs /\ gateway_calls evs = [].
Proof.
  unfold check_host, run_ping.
  destruct (ping E 1 host) as [returncode stdout | e].
  - exists (Ok (returncode =? 0)), [Ping 1 host].
    split; [run | reflexivity].
  - destruct (isinstance_any e [SubprocessError; TimeoutExpired]) eqn:Hi.
    + exists (Ok false), [Ping 1 host]. split; [run | reflexivity].
    + exists (Raise e), [Ping 1 host]. split; [run | reflexivity].
Qed.

Lemma check_hosts_yields (E : env) (hosts : list string) :
  exists r evs, yields (check_hosts E hosts) r evs /\ gateway_calls evs = [].
Proof.
  induction hosts as [| host rest IH]; simpl.
  - exists (Ok false), []. split; [apply yields_ret | reflexivity].
  - destruct (check_host_yields E host) as (r1 & evs1 & H1 & G1).
    destruct IH as (r2 & evs2 & H2 & G2).
    destruct r1 as [[|] | e].
    + exists (Ok true), (evs1 ++ [])%list. split.
      * eapply yields_bind_ok; [exact H1 | apply yields_ret].
      * now rewrite app_nil_r.
    + exists r2, (evs1 ++ evs2)%list. split.
      * eapply yields_bind_ok; [exact H1 | exact H2].
      * now rewrite gateway_calls_app, G1, G2.
    + exists (Raise e), evs1. split; [| exact G1].
      now apply yields_bind_raise.
Qed.

Lemma precheck_yields (E : env) :
  exists evs,
    yields (check_network_connectivity E) (precheck E) evs /\
    gateway_calls evs = [].
Proof.
  destruct (check_hosts_yields E PING_HOSTS) as (r & evs & H & G).
  exists evs. split; [| exact G].
  unfold precheck, check_network_connectivity.
  now rewrite (yields_fst _ _ _ blank H).
Qed.

Lemma getitem_raises {A : Type} (l : list A) (i : nat) (e : exn) :
  getitem l i = Raise e -> e = IndexError.
Proof.
  unfold getitem. destruct (nth_error l i); intros H; now inversion H.
Qed.

Lemma float_raises (s : string) (e : exn) :
  float s = Raise e -> e = ValueError.
Proof.
  unfold float.
  destruct (match strip s with
            | String "+" r => (false, r)
            | String "-" r => (true, r)
            | _ => (false, strip s)
            end) as [negative body].
  destruct (_ || _); [discriminate |].
  destruct (String.eqb _ _); [discriminate |].
  destruct (floatnumber body) as [[m k] |]; intros H; now inversion H.
Qed.

Lemma map_float_raises (l : list string) (e : exn) :
  map_result float l = Raise e -> e = ValueError.
Proof.
  induction l as [| s l IH]; simpl; [discriminate |].
  destruct (float s) eqn:Hf; simpl.
  - destruct (map_result float l); simpl; [discriminate |].
    intros H. apply IH. exact H.
  - intros H. inversion H. subst. eapply float_raises. exact Hf.
Qed.

(** The extraction raises nothing but [ValueError] and [IndexError]. *)
Lemma parse_raises (output : string) (e : exn) :
  parse_ping_output output = Raise e -> e = ValueError \/ e = IndexError.
Proof.
  unfold parse_ping_output.
  repeat match goal with
         | |- context [if ?b then _ else _] => destruct b
         | |- context [rbind (getitem ?l ?i) _] =>
             let H := fresh "H" in
             destruct (getitem l i) eqn:H; simpl;
             [| apply getitem_raises in H; intros H'; inversion H'; subst;
                now right]
         | |- context [rbind (float ?s) _] =>
             let H := fresh "H" in
             destruct (float s) eqn:H; simpl;
             [| apply float_raises in H; intros H'; inversion H'; subst;
                now left]
         | |- Ok _ = Raise _ -> _ => discriminate
         end.
  destruct (map_result float _) eqn:H; simpl; [discriminate |].
  apply map_float_raises in H. intros H'. inversion H'; subst. now left.
Qed.

Lemma measure_host_yields (E : env) (total : pyfloat) (n : nat)
  (host : string) :
  exists evs,
    yields (measure_host E (total, n) host)
      (match sample E host with
       | Ok (Some t) => Ok (add total t, S n)
       | Ok None => Ok (total, n)
       | Raise e => Raise e
       end) evs /\
    gateway_calls evs = [].
Proof.
  unfold measure_host, sample, run_ping.
  destruct (ping E 3 host) as [returncode output | e].
  - destruct (returncode =? 0) eqn:Hrc.
    + destruct (parse_ping_output output) as [[t |] | e] eqn:Hparse.
      * exists [Ping 3 host]. split; [run | reflexivity].
      * exists [Ping 3 host]. split; [run | reflexivity].
      * destruct (isinstance_any e [ValueError; IndexError]) eqn:Hi.
        -- exists [Ping 3 host; Log WARNING "Could not parse ping output";
                   Log DEBUG "Ping output was"].
           split; [run | reflexivity].
        -- exfalso. destruct (parse_raises _ _ Hparse); subst;
             vm_compute in Hi; discriminate.
    + exists [Ping 3 host]. split; [run | reflexivity].
  - destruct (isinstance_any e [SubprocessError; TimeoutExpired]) eqn:Hi.
    + exists [Ping 3 host; Log WARNING "Ping to host failed"].
      split; [run | reflexivity].
    + exists [Ping 3 host]. split; [run | reflexivity].
Qed.

Lemma measure_hosts_yields (E : env) (hosts : list string) :
  forall (total : pyfloat) (n : nat),
  exists evs,
    yields (measure_hosts E (total, n) hosts)
      (match samples_of E hosts with
       | Ok xs => Ok (fold_left add xs total, (n + List.length xs)%nat)
       | Raise e => Raise e
       end) evs /\
    gateway_calls evs = [].
Proof.
  induction hosts as [| host rest IH]; intros total n; simpl.
  - exists []. split; [| reflexivity].
    rewrite Nat.add_0_r. apply yields_ret.
  - destruct (measure_host_yields E total n host) as (evs1 & H1 & G1).
    destruct (sample E host) as [[t |] | e]; simpl.
    + destruct (IH (add total t) (S n)) as (evs2 & H2 & G2).
      exists (evs1 ++ evs2)%list. split.
      * destruct (samples_of E rest) as [xs | e]; simpl in *.
        -- rewrite Nat.add_succ_r.
           eapply yields_bind_ok; [exact H1 | exact H2].
        -- eapply yields_bind_ok; [exact H1 | exact H2].
      * now rewrite gateway_calls_app, G1, G2.
    + destruct (IH total n) as (evs2 & H2 & G2).
      exists (evs1 ++ evs2)%list. split.
      * destruct (samples_of E rest) as [xs | e]; simpl in *;
          (eapply yields_bind_ok; [exact H1 | exact H2]).
      * now rewrite gateway_calls_app, G1, G2.
    + exists evs1. split; [| exact G1].
      now apply yields_bind_raise.
Qed.

Lemma classify_yields (total : pyfloat) (n : nat) :
  exists evs,
    yields (classify (total, n))
      (Ok (match n with
           | O => offline
           | S _ =>
               if ltb (div_count total n) (of_Z 200) then good
               else if ltb (div_count total n) (of_Z 500) then poor
               else very_poor
           end)) evs /\
    gateway_calls evs = [].
Proof.
  unfold classify. destruct n as [| n].
  - exists []. split; [apply yields_ret | reflexivity].
  - exists [Log INFO "Average ping time"]. split; [| reflexivity].
    destruct (ltb (div_count total (S n)) (of_Z 200)) eqn:H200;
      [| destruct (ltb (div_count total (S n)) (of_Z 500)) eqn:H500]; run.
Qed.

(** The measurement classifies the samples of the cycle as section 4.2
    says, and raises what the sampling raises. *)
Lemma measure_yields (E : env) :
  exists evs,
    yields (measure_connection_quality E)
      (match samples E with
       | Ok xs => Ok (Spec.classifier xs)
       | Raise e => Raise e
       end) evs /\
    gateway_calls evs = [].
Proof.
  unfold measure_connection_quality, samples.
  destruct (measure_hosts_yields E PING_HOSTS (of_Z 0) O) as (evs1 & H1 & G1).
  destruct (samples_of E PING_HOSTS) as [xs | e].
  - destruct (classify_yields (fold_left add xs (of_Z 0)) (List.length xs))
      as (evs2 & H2 & G2).
    exists (evs1 ++ evs2)%list. split.
    + replace (Ok (Spec.classifier xs)) with
        (Ok (match List.length xs with
             | O => offline
             | S _ =>
                 if ltb (div_count (fold_left add xs (of_Z 0))
                           (List.length xs)) (of_Z 200) then good
                 else if ltb (div_count (fold_left add xs (of_Z 0))
                                (List.length xs)) (of_Z 500) then poor
                 else very_poor
             end) : result quality)
        by (now destruct xs).
      eapply yields_bind_ok; [exact H1 | exact H2].
    + now rewrite gateway_calls_app, G1, G2.
  - exists evs1. split; [| exact G1].
    now apply yields_bind_raise.
Qed.

Lemma measured_samples (E : env) :
  measured E = match samples E with
               | Ok xs => Ok (Spec.classifier xs)
               | Raise e => Raise e
               end.
Proof.
  destruct (measure_yields E) as (evs & H & _).
  unfold measured. now rewrite (yields_fst _ _ _ blank H).
Qed.

(** ** The cycle *)

Lemma adjust_in_cycle (E : env) (q : quality) (w : world) :
  connection_quality (ns w) = q ->
  exists evs,
    adjust_transmission_settings E q w =
      (adjust_result E q,
       mk_world (adjust_state E q (ns w)) (trace w ++ evs)) /\
    gateway_calls evs = adjust_calls E q.
Proof.
  intros Hq. destruct (adjust_spec E q w) as (evs & H & G).
  exists evs. rewrite H, G, Hq. unfold adjust_result, adjust_calls,
    adjust_state.
  destruct q; simpl; try (split; reflexivity);
    destruct (gateway_reply E "torrent-stop"); split; reflexivity.
Qed.

Lemma get_torrent_list_yields (E : env) :
  exists r evs,
    yields (get_torrent_list E) r evs /\
    gateway_calls evs = [("torrent-get", torrent_fields)].
Proof.
  destruct (rpc_yields E "torrent-get" torrent_fields) as (evs & H & G).
  unfold get_torrent_list.
  destruct (gateway_reply E "torrent-get") as [response | e].
  - match goal with
    | |- context [bind _ (fun resp => bind (lift (@?f resp)) _)] =>
        destruct (f response) as [[torrents |] | e] eqn:Hfound
    end; cbv beta in Hfound.
    + exists (Ok torrents), ((Gateway "torrent-get" torrent_fields :: evs)
                             ++ [] ++ [])%list.
      split.
      * eapply yields_bind_ok; [exact H |].
        rewrite Hfound.
        eapply yields_bind_ok; [apply yields_lift | apply yields_ret].
      * rewrite !app_nil_r. simpl. now rewrite G.
    + exists (Ok (JArr [])), ((Gateway "torrent-get" torrent_fields :: evs)
                              ++ [] ++ [])%list.
      split.
      * eapply yields_bind_ok; [exact H |].
        rewrite Hfound.
        eapply yields_bind_ok; [apply yields_lift | apply yields_ret].
      * rewrite !app_nil_r. simpl. now rewrite G.
    + exists (Raise e), ((Gateway "torrent-get" torrent_fields :: evs)
                         ++ [])%list.
      split.
      * eapply yields_bind_ok; [exact H |].
        rewrite Hfound.
        eapply yields_bind_raise. apply yields_lift.
      * rewrite !app_nil_r. simpl. now rewrite G.
  - exists (Raise e), (Gateway "torrent-get" torrent_fields :: evs).
    split.
    + eapply yields_bind_raise. exact H.
    + simpl. now rewrite G.
Qed.

(** Lines 274 to 278: the report on the torrents. *)
Lemma report_yields (E : env) :
  exists r evs,
    yields (torrents <- get_torrent_list E ;;
            active_downloads <- lift (count_active "rateDownload" torrents) ;;
            active_uploads <- lift (count_active "rateUpload" torrents) ;;
            log INFO "Active torrents") r evs /\
    gateway_calls evs = [("torrent-get", torrent_fields)].
Proof.
  destruct (get_torrent_list_yields E) as (r & evs & H & G).
  destruct r as [torrents | e].
  - destruct (count_active "rateDownload" torrents) as [d | e] eqn:Hd.
    + destruct (count_active "rateUpload" torrents) as [u | e] eqn:Hu.
      * exists (Ok tt), (evs ++ [] ++ [] ++ [Log INFO "Active torrents"])%list.
        split.
        -- eapply yields_bind_ok; [exact H |]. rewrite Hd.
           eapply yields_bind_ok; [apply yields_lift |]. rewrite Hu.
           eapply yields_bind_ok; [apply yields_lift | apply yields_emit].
        -- rewrite gateway_calls_app, G. reflexivity.
      * exists (Raise e), (evs ++ [] ++ [])%list. split.
        -- eapply yields_bind_ok; [exact H |]. rewrite Hd.
           eapply yields_bind_ok; [apply yields_lift |]. rewrite Hu.
           eapply yields_bind_raise. apply yields_lift.
        -- rewrite gateway_calls_app, G. reflexivity.
    + exists (Raise e), (evs ++ [])%list. split.
      * eapply yields_bind_ok; [exact H |]. rewrite Hd.
        eapply yields_bind_raise. apply yields_lift.
      * rewrite gateway_calls_app, G. reflexivity.
  - exists (Raise e), evs. split; [| exact G].
    eapply yields_bind_raise. exact H.
Qed.

Lemma cycle_body_spec (E : env) (w : world) :
  exists r evs,
    cycle_body E w =
      (r, mk_world (cycle_state E (ns w)) (trace w ++ evs)) /\
    gateway_calls evs = cycle_calls E.
Proof.
  destruct (precheck_yields E) as (evs0 & H0 & G0).
  unfold cycle_body, cycle_state, cycle_calls.
  destruct (precheck E) as [[|] | e].
  - (* the pre-check passes *)
    erewrite bind_ok by apply H0. cbv beta iota.
    destruct (measure_yields E) as (evs1 & H1 & G1).
    rewrite <- measured_samples in H1.
    destruct (measured E) as [q | e].
    + erewrite bind_ok by apply H1. cbv beta.
      do 5 (erewrite bind_ok by reflexivity).
      match goal with
      | |- context [bind (adjust_transmission_settings E q) _ ?w5] =>
          destruct (adjust_in_cycle E q w5 eq_refl) as (evs2 & H2 & G2)
      end.
      simpl in H2.
      destruct (adjust_result E q) as [[] | e].
      * erewrite bind_ok by apply H2.
        destruct (report_yields E) as (r & evs3 & H3 & G3).
        exists r, (evs0 ++ evs1 ++ [Log INFO "Network status"] ++ evs2
                   ++ evs3)%list.
        split.
        -- rewrite H3. simpl. now rewrite <- !app_assoc.
        -- rewrite !gateway_calls_app, G0, G1, G2, G3. reflexivity.
      * erewrite bind_raise by apply H2.
        exists (Raise e), (evs0 ++ evs1 ++ [Log INFO "Network status"]
                           ++ evs2)%list.
        split.
        -- simpl. now rewrite <- !app_assoc.
        -- rewrite !gateway_calls_app, G0, G1, G2, app_nil_r. reflexivity.
    + erewrite bind_raise by apply H1.
      exists (Raise e), (evs0 ++ evs1)%list. split.
      * simpl. now rewrite <- !app_assoc.
      * now rewrite gateway_calls_app, G0, G1.
  - (* the pre-check fails *)
    erewrite bind_ok by apply H0. cbv beta iota.
    do 5 (erewrite bind_ok by reflexivity).
    match goal with
    | |- context [adjust_transmission_settings E offline ?w5] =>
        destruct (adjust_in_cycle E offline w5 eq_refl) as (evs2 & H2 & G2)
    end.
    exists (adjust_result E offline),
      (evs0 ++ [Log WARNING "Network is offline"] ++ evs2)%list.
    split.
    + rewrite H2. simpl. now rewrite <- !app_assoc.
    + now rewrite !gateway_calls_app, G0, G2.
  - (* the pre-check raises *)
    erewrite bind_raise by apply H0.
    exists (Raise e), evs0. split; [reflexivity | exact G0].
Qed.

Lemma cycle_spec (E : env) (w : world) :
  exists evs,
    cycle E w = (Ok tt, mk_world (cycle_state E (ns w)) (trace w ++ evs)) /\
    gateway_calls evs = cycle_calls E.
Proof.
  destruct (cycle_body_spec E w) as (r & evs & H & G).
  unfold cycle.
  destruct r as [[] | e].
  - exists (evs ++ [Sleep CHECK_INTERVAL])%list. split.
    + erewrite bind_ok by (unfold try_except; rewrite H; reflexivity).
      unfold emit. simpl. now rewrite <- app_assoc.
    + now rewrite gateway_calls_app, G, app_nil_r.
  - exists (evs ++ [Log ERROR "Error in connection manager";
                    Sleep CHECK_INTERVAL])%list.
    split.
    + erewrite bind_ok
        by (unfold try_except; rewrite H, isinstance_Exception; reflexivity).
      unfold emit. simpl. now rewrite <- !app_assoc.
    + now rewrite gateway_calls_app, G, app_nil_r.
Qed.

Lemma cycle_state_eq (E : env) (w : world) :
  ns (snd (cycle E w)) = cycle_state E (ns w).
Proof. destruct (cycle_spec E w) as (evs & H & _). now rewrite H. Qed.

Lemma cycle_calls_eq (E : env) (w : world) :
  gateway_calls (trace (snd (cycle E w))) =
  (gateway_calls (trace w) ++ cycle_calls E)%list.
Proof.
  destruct (cycle_spec E w) as (evs & H & G). rewrite H. simpl.
  now rewrite gateway_calls_app, G.
Qed.

Lemma cycle_returns (E : env) (w : world) : fst (cycle E w) = Ok tt.
Proof. destruct (cycle_spec E w) as (evs & H & _). now rewrite H. Qed.

(** The tier that a cycle classifies the link as is the tier it leaves
    in [network_state]. *)
Lemma classification_recorded (E : env) (w : world) (q : quality) :
  classification E = Some q ->
  connection_quality (ns (snd (cycle E w))) = q.
Proof.
  rewrite cycle_state_eq. unfold classification, cycle_state.
  destruct (precheck E) as [[|] | e]; try discriminate.
  - destruct (measured E) as [q' | e]; [| discriminate].
    intros H. inversion H. subst q'. unfold adjust_state.
    destruct q; try reflexivity.
    now destruct (gateway_reply E "torrent-stop").
  - intros H. inversion H. subst q. unfold adjust_state.
    now destruct (gateway_reply E "torrent-stop").
Qed.

(** ** Resuming after an outage *)

(** Called on its own with [network_state] still saying offline,
    [adjust_transmission_settings("good")] does resume first. *)
Lemma adjust_resumes_when_recorded_offline (E : env) (w : world) :
  connection_quality (ns w) = offline ->
  exists rest,
    gateway_calls (trace (snd (adjust_transmission_settings E good w))) =
    (gateway_calls (trace w) ++ ("torrent-start", JObj []) :: rest)%list.
Proof.
  intros Hq. destruct (adjust_spec E good w) as (evs & H & G).
  rewrite Hq in G. simpl in G. rewrite H. simpl.
  rewrite gateway_calls_app, G. eexists. reflexivity.
Qed.

(** C1, which the code does not meet.  [main] stores the new tier in
    [network_state] before it calls [adjust_transmission_settings], so the
    test for a previous outage there reads the tier of this cycle: no
    cycle, from any state and in any environment, calls [torrent-start].
    After an outage, a cycle that finds a good link applies the settings
    and lists the torrents, and resumes nothing. *)
Theorem resume_never_issued :
  (forall (E : env) (w : world),
     exists calls,
       gateway_calls (trace (snd (cycle E w))) =
       (gateway_calls (trace w) ++ calls)%list /\
       count_method "torrent-start" calls = 0%nat) /\
  connection_quality (ns Sample.was_offline) = offline /\
  classification Sample.good_env = Some good /\
  gateway_calls (trace (snd (cycle Sample.good_env Sample.was_offline))) =
    [("session-set", settings_of good); ("torrent-get", torrent_fields)].
Proof.
  split; [| repeat split; vm_compute; reflexivity].
  intros E w. exists (cycle_calls E). split; [apply cycle_calls_eq |].
  unfold cycle_calls, adjust_calls, adjust_result.
  destruct (precheck E) as [[|] | e]; try reflexivity.
  - destruct (measured E) as [[| | |] | e]; try reflexivity;
      repeat match goal with
             | |- context [gateway_reply E ?m] =>
                 destruct (gateway_reply E m)
             end; reflexivity.
  - destruct (gateway_reply E "torrent-stop"); reflexivity.
Qed.

(** ** The reconnect counter *)

(** C2 fails: a cycle whose pre-check passes and whose measurement then
    gets no sample is classified offline, and it resets the counter. *)
Lemma counter_reset_by_offline_measurement :
  classification Sample.flapping_env = Some offline /\
  reconnect_count (ns Sample.was_offline) = 1 /\
  (let s := ns (snd (cycle Sample.flapping_env Sample.was_offline)) in
   connection_quality s = offline /\ reconnect_count s = 0).
Proof. vm_compute. repeat split; reflexivity. Qed.

(** C2 as amended.  The counter goes up by one in a cycle whose
    pre-check finds no host, goes to 0 in a cycle whose pre-check finds
    one and whose measurement returns, and stays as it is in a cycle
    that an exception ends before that.  Three cycles with a failed
    pre-check, one classified good and one more with a failed pre-check
    take it from 0 through 1, 2, 3, 0, 1. *)
Theorem reconnect_count_follows_precheck :
  (forall (E : env) (w : world),
     reconnect_count (ns (snd (cycle E w))) =
     match precheck E with
     | Ok false => reconnect_count (ns w) + 1
     | Ok true =>
         match measured E with
         | Ok _ => 0
         | Raise _ => reconnect_count (ns w)
         end
     | Raise _ => reconnect_count (ns w)
     end) /\
  (forall (E1 E2 E3 E4 E5 : env) (w : world),
     reconnect_count (ns w) = 0 ->
     precheck E1 = Ok false -> precheck E2 = Ok false ->
     precheck E3 = Ok false ->
     classification E4 = Some good -> precheck E4 = Ok true ->
     precheck E5 = Ok false ->
     map reconnect_count (history [E1; E2; E3; E4; E5] w) = [1; 2; 3; 0; 1]).
Proof.
  assert (Hstep : forall E w,
     reconnect_count (ns (snd (cycle E w))) =
     match precheck E with
     | Ok false => reconnect_count (ns w) + 1
     | Ok true =>
         match measured E with
         | Ok _ => 0
         | Raise _ => reconnect_count (ns w)
         end
     | Raise _ => reconnect_count (ns w)
     end).
  { intros E w. rewrite cycle_state_eq. unfold cycle_state, adjust_state.
    destruct (precheck E) as [[|] | e]; try reflexivity.
    - destruct (measured E) as [[| | |] | e]; try reflexivity.
      now destruct (gateway_reply E "torrent-stop").
    - now destruct (gateway_reply E "torrent-stop"). }
  split; [exact Hstep |].
  intros E1 E2 E3 E4 E5 w H0 H1 H2 H3 H4 H4' H5.
  unfold classification in H4. rewrite H4' in H4.
  destruct (measured E4) as [q4 | e4] eqn:Hm4; [| discriminate].
  simpl. rewrite !Hstep, H1, H2, H3, H4', Hm4, H5, H0. reflexivity.
Qed.

Lemma reconnect_count_follows_precheck_witness :
  map reconnect_count
    (history [Sample.offline_env; Sample.offline_env; Sample.offline_env;
              Sample.good_env; Sample.offline_env] Sample.start)
  = [1; 2; 3; 0; 1].
Proof.
  apply (proj2 reconnect_count_follows_precheck); vm_compute; reflexivity.
Defined.

(** ** The classifier *)

Lemma measure_result (E : env) (w : world) :
  fst (measure_connection_quality E w) =
  match samples E with
  | Ok xs => Ok (Spec.classifier xs)
  | Raise e => Raise e
  end.
Proof.
  destruct (measure_yields E) as (evs & H & _).
  apply (yields_fst _ _ _ w H).
Qed.

Lemma SFcompare_antisym (x y : pyfloat) (c : comparison) :
  SFcompare x y = Some c -> SFcompare y x = Some (CompOpp c).
Proof.
  destruct x as [sx | sx | | sx mx ex], y as [sy | sy | | sy my ey];
    simpl; try discriminate;
    try (destruct sx); try (destruct sy);
    intros H; inversion H; try reflexivity;
    rewrite (Z.compare_antisym ex ey);
    destruct (ex ?= ey); simpl; try reflexivity;
    replace (Pos.compare_cont Eq my mx)
      with (CompOpp (Pos.compare_cont Eq mx my))
      by apply (Pos.compare_cont_antisym mx my Eq);
    now destruct (Pos.compare_cont Eq mx my).
Qed.

(** [a <= m] rules out [m < a]. *)
Lemma leb_not_ltb (a m : pyfloat) : leb a m = true -> ltb m a = false.
Proof.
  unfold leb, ltb, SFleb, SFltb.
  destruct (SFcompare a m) as [c |] eqn:Hc; [| discriminate].
  rewrite (SFcompare_antisym a m c Hc).
  destruct c; simpl; [reflexivity | reflexivity | discriminate].
Qed.

Lemma leb_trans_200_500 (m : pyfloat) :
  leb (of_Z 500) m = true -> leb (of_Z 200) m = true.
Proof.
  change (of_Z 500) with (S754_finite false 8796093022208000 (-44)).
  change (of_Z 200) with (S754_finite false 7036874417766400 (-45)).
  unfold leb, SFleb.
  destruct m as [s | s | | s mm e]; try (destruct s);
    cbv beta iota delta [SFcompare];
    try discriminate; try reflexivity.
  intros H.
  assert (He : (-45 ?= e) = Lt).
  { destruct (-44 ?= e) eqn:H1.
    - apply Z.compare_eq in H1. now subst e.
    - change (-45 < e). apply Z.lt_trans with (-44); [reflexivity | exact H1].
    - discriminate H. }
  now rewrite He.
Qed.

(** C3 fails for the arithmetic mean: two samples whose exact mean is
    below 200 are classified poor, because the sum that the code forms,
    [199.99999999999997 + 200.0], rounds to 400.0. *)
Lemma rounded_mean_crosses_threshold :
  samples Sample.rounding_env
    = Ok [S754_finite false 7036874417766399 (-45); of_Z 200] /\
  float "199.99999999999997"
    = Ok (S754_finite false 7036874417766399 (-45)) /\
  exact (S754_finite false 7036874417766399 (-45))
    = Some (7036874417766399 # 35184372088832)%Q /\
  exact (of_Z 200) = Some (7036874417766400 # 35184372088832)%Q /\
  (((7036874417766399 # 35184372088832)
    + (7036874417766400 # 35184372088832)) / 2 < 200)%Q /\
  mean [S754_finite false 7036874417766399 (-45); of_Z 200] = of_Z 200 /\
  measured Sample.rounding_env = Ok poor.
Proof. vm_compute. repeat split; reflexivity. Qed.

(** C3 as amended.  When the sampling of a cycle ends with the samples
    [xs], the measurement returns offline if there is none; otherwise,
    with [m] the mean as the code computes it in binary64 (the samples
    added from the left, each sum rounded, and the total divided by
    their number), it returns good when [m < 200], poor when
    [200 <= m < 500] and very poor when [m >= 500] or [m] is NaN.  Two
    hosts that both report an average of 199.999, 200.0, 499.999 or
    500.0 give good, poor, poor and very poor. *)
Theorem classifier_thresholds :
  (forall (E : env) (w : world) (xs : list pyfloat),
     samples E = Ok xs ->
     exists q,
       fst (measure_connection_quality E w) = Ok q /\
       (xs = [] -> q = offline) /\
       (xs <> [] ->
          (ltb (mean xs) (of_Z 200) = true -> q = good) /\
          (leb (of_Z 200) (mean xs) = true ->
           ltb (mean xs) (of_Z 500) = true -> q = poor) /\
          (leb (of_Z 500) (mean xs) = true -> q = very_poor) /\
          (mean xs = S754_nan -> q = very_poor))) /\
  (forall w : world,
     (exists x,
        float "199.999" = Ok x /\
        samples (Sample.online_env "199.999") = Ok [x; x] /\
        mean [x; x] = x /\ ltb x (of_Z 200) = true /\
        fst (measure_connection_quality (Sample.online_env "199.999") w)
          = Ok good) /\
     (float "200.0" = Ok (of_Z 200) /\
      samples (Sample.online_env "200.0") = Ok [of_Z 200; of_Z 200] /\
      mean [of_Z 200; of_Z 200] = of_Z 200 /\
      fst (measure_connection_quality (Sample.online_env "200.0") w)
        = Ok poor) /\
     (exists x,
        float "499.999" = Ok x /\
        samples (Sample.online_env "499.999") = Ok [x; x] /\
        mean [x; x] = x /\ ltb x (of_Z 500) = true /\
        fst (measure_connection_quality (Sample.online_env "499.999") w)
          = Ok poor) /\
     (float "500.0" = Ok (of_Z 500) /\
      samples (Sample.online_env "500.0") = Ok [of_Z 500; of_Z 500] /\
      mean [of_Z 500; of_Z 500] = of_Z 500 /\
      fst (measure_connection_quality (Sample.online_env "500.0") w)
        = Ok very_poor)).
Proof.
  split.
  - intros E w xs Hxs. rewrite measure_result, Hxs.
    exists (Spec.classifier xs). split; [reflexivity |].
    split; [intros ->; reflexivity |].
    intros Hne. unfold Spec.classifier.
    destruct xs as [| x xs']; [congruence |].
    set (m := mean (x :: xs')).
    repeat split.
    + intros Hlt. now rewrite Hlt.
    + intros Hge Hlt. now rewrite (leb_not_ltb _ _ Hge), Hlt.
    + intros Hge.
      now rewrite (leb_not_ltb _ _ (leb_trans_200_500 m Hge)),
        (leb_not_ltb _ _ Hge).
    + intros Hnan. now rewrite Hnan.
  - intros w. rewrite !measure_result.
    repeat split; try (eexists; repeat split); vm_compute; reflexivity.
Qed.

Lemma classifier_thresholds_witness :
  exists q,
    fst (measure_connection_quality Sample.rounding_env Sample.start)
      = Ok q /\
    ([S754_finite false 7036874417766399 (-45); of_Z 200] = [] ->
     q = offline) /\
    ([S754_finite false 7036874417766399 (-45); of_Z 200] <> [] ->
     (ltb (mean [S754_finite false 7036874417766399 (-45); of_Z 200])
          (of_Z 200) = true -> q = good) /\
     (leb (of_Z 200)
          (mean [S754_finite false 7036874417766399 (-45); of_Z 200])
        = true ->
      ltb (mean [S754_finite false 7036874417766399 (-45); of_Z 200])
          (of_Z 500) = true -> q = poor) /\
     (leb (of_Z 500)
          (mean [S754_finite false 7036874417766399 (-45); of_Z 200])
        = true -> q = very_poor) /\
     (mean [S754_finite false 7036874417766399 (-45); of_Z 200] = S754_nan ->
      q = very_poor)).
Proof.
  apply (proj1 classifier_thresholds Sample.rounding_env Sample.start
           [S754_finite false 7036874417766399 (-45); of_Z 200]).
  vm_compute. reflexivity.
Defined.

(** ** Probes whose output gives no latency *)

(** When the extraction raises, the host counts with 1000 ms. *)
Lemma sample_fallback (E : env) (host output : string) (e : exn) :
  ping E 3 host = Completed 0 output ->
  parse_ping_output output = Raise e ->
  sample E host = Ok (Some (of_Z 1000)).
Proof.
  intros Hp He. unfold sample. rewrite Hp, He. simpl.
  destruct (parse_raises _ _ He); subst; reflexivity.
Qed.

(** A probe that exits with a non-zero status gives no sample, whatever
    it printed. *)
Lemma sample_failed_probe (E : env) (host output : string) (rc : Z) :
  ping E 3 host = Completed rc output -> rc <> 0 ->
  sample E host = Ok None.
Proof.
  intros Hp Hrc. unfold sample. rewrite Hp.
  destruct (rc =? 0) eqn:H0; [| reflexivity].
  apply Z.eqb_eq in H0. contradiction.
Qed.

(** C4 fails as stated: with a non-zero exit status both hosts are left
    out, the link is classified offline and the settings applied are
    those of the offline tier. *)
Lemma nonzero_exit_is_dropped :
  ping Sample.failed_garbage_env 3 "1.1.1.1"
    = Completed 1 "no route to host" /\
  ping Sample.failed_garbage_env 3 "8.8.8.8"
    = Completed 1 "no route to host" /\
  samples Sample.failed_garbage_env = Ok [] /\
  measured Sample.failed_garbage_env = Ok offline /\
  gateway_calls
    (trace (snd (cycle Sample.failed_garbage_env Sample.start))) =
    [("torrent-stop", JObj []);
     ("session-set",
      JObj [("alt-speed-enabled", JBool true);
            ("alt-speed-down", JInt 10);
            ("alt-speed-up", JInt 1);
            ("download-queue-size", JInt 1);
            ("peer-limit-global", JInt 20);
            ("peer-limit-per-torrent", JInt 5)]);
     ("torrent-get", torrent_fields)].
Proof. vm_compute. repeat split; reflexivity. Qed.

(** C4 as amended.  When the probes to both hosts exit with status 0 and
    print text on which the extraction of the latency raises, both hosts
    count with the fallback of 1000 ms, the mean is 1000 ms, the link is
    classified very poor and the settings sent are alt-speed on, down 20,
    up 2, queue 1, 30 peers in all and 10 per torrent. *)
Theorem unparsed_successful_probes_fall_back
  (E : env) (out1 out2 : string) (e1 e2 : exn) (w : world) :
  ping E 3 "1.1.1.1" = Completed 0 out1 ->
  parse_ping_output out1 = Raise e1 ->
  ping E 3 "8.8.8.8" = Completed 0 out2 ->
  parse_ping_output out2 = Raise e2 ->
  samples E = Ok [of_Z 1000; of_Z 1000] /\
  mean [of_Z 1000; of_Z 1000] = of_Z 1000 /\
  fst (measure_connection_quality E w) = Ok very_poor /\
  exists evs,
    snd (adjust_transmission_settings E very_poor w) =
      mk_world (with_mode minimal (ns w)) (trace w ++ evs) /\
    gateway_calls evs =
      [("session-set",
        JObj [("alt-speed-enabled", JBool true);
              ("alt-speed-down", JInt 20);
              ("alt-speed-up", JInt 2);
              ("download-queue-size", JInt 1);
              ("peer-limit-global", JInt 30);
              ("peer-limit-per-torrent", JInt 10)])].
Proof.
  intros Hp1 He1 Hp2 He2.
  assert (Hs : samples E = Ok [of_Z 1000; of_Z 1000]).
  { unfold samples, PING_HOSTS. simpl.
    rewrite (sample_fallback E _ _ _ Hp1 He1).
    rewrite (sample_fallback E _ _ _ Hp2 He2). reflexivity. }
  split; [exact Hs |]. split; [reflexivity |].
  split; [rewrite measure_result, Hs; reflexivity |].
  destruct (adjust_spec E very_poor w) as (evs & H & G).
  exists evs. rewrite H. split; [reflexivity | exact G].
Qed.

Lemma unparsed_successful_probes_fall_back_witness :
  samples Sample.iputils_env = Ok [of_Z 1000; of_Z 1000] /\
  mean [of_Z 1000; of_Z 1000] = of_Z 1000 /\
  fst (measure_connection_quality Sample.iputils_env Sample.start)
    = Ok very_poor /\
  exists evs,
    snd (adjust_transmission_settings Sample.iputils_env very_poor
           Sample.start) =
      mk_world (with_mode minimal (ns Sample.start))
        (trace Sample.start ++ evs) /\
    gateway_calls evs =
      [("session-set",
        JObj [("alt-speed-enabled", JBool true);
              ("alt-speed-down", JInt 20);
              ("alt-speed-up", JInt 2);
              ("download-queue-size", JInt 1);
              ("peer-limit-global", JInt 30);
              ("peer-limit-per-torrent", JInt 10)])].
Proof.
  apply (unparsed_successful_probes_fall_back Sample.iputils_env
           Sample.iputils Sample.iputils ValueError ValueError
           Sample.start); vm_compute; reflexivity.
Defined.

(** C5, which the code does not meet.  A probe that exits with status 0
    and prints no round-trip time in any of the three shapes raises
    nothing in the extraction, so the fallback is not reached: the host
    gives no sample.  With both hosts answering so, the link is
    classified offline.  The same happens when the text has the
    [min/avg/max] marker and no slash after it. *)
Theorem silent_output_is_dropped :
  ping Sample.no_times_env 3 "1.1.1.1" = Completed 0 Sample.no_times /\
  parse_ping_output Sample.no_times = Ok None /\
  sample Sample.no_times_env "1.1.1.1" = Ok None /\
  samples Sample.no_times_env = Ok [] /\
  (forall w, fst (measure_connection_quality Sample.no_times_env w)
             = Ok offline) /\
  parse_ping_output "round-trip min/avg/max unknown" = Ok None.
Proof.
  repeat split; vm_compute; reflexivity.
Qed.

(** ** The policy table *)

(** C6 fails: the settings are not the value of a function without
    effects.  They are built inside [adjust_transmission_settings], which
    sends them itself: a call with the tier offline stops the torrents,
    sends [session-set] and records the mode, and two calls with the
    tier good call the gateway differently according to the tier
    recorded in [network_state]. *)
Lemma adjust_has_side_effects :
  ns Sample.start = mk_network_state 0 true good 0 normal /\
  gateway_calls (trace Sample.start) = [] /\
  (let w := snd (adjust_transmission_settings Sample.good_env offline
                   Sample.start) in
   ns w = mk_network_state 0 true good 0 minimal /\
   gateway_calls (trace w) =
     [("torrent-stop", JObj []);
      ("session-set",
       JObj [("alt-speed-enabled", JBool true);
             ("alt-speed-down", JInt 10);
             ("alt-speed-up", JInt 1);
             ("download-queue-size", JInt 1);
             ("peer-limit-global", JInt 20);
             ("peer-limit-per-torrent", JInt 5)])]) /\
  gateway_calls
    (trace (snd (adjust_transmission_settings Sample.good_env good
                   Sample.start))) =
    [("session-set", settings_of good)] /\
  gateway_calls (trace Sample.was_offline) = [] /\
  gateway_calls
    (trace (snd (adjust_transmission_settings Sample.good_env good
                   Sample.was_offline))) =
    [("torrent-start", JObj []); ("session-set", settings_of good)].
Proof. vm_compute. repeat split; reflexivity. Qed.

(** C6 as amended.  The settings that [adjust_transmission_settings]
    sends are a total and deterministic function of the tier, with the
    values of the policy table: in every state and environment a call
    with the tier [q] sends one [session-set] with the row of [q], as
    its last call of the gateway, after [torrent-stop] for the tier
    offline and after [torrent-start] for the tier good when the tier
    recorded is offline; the [session-set] is missing only when that
    earlier call raises.  Two calls with the same tier send the same
    settings.  The function is not free of effects: every call of it
    calls the gateway, and it records the bandwidth mode of the tier
    unless [torrent-stop] raises. *)
Theorem settings_follow_policy_table :
  (forall q : quality, settings_of q = Spec.arguments (Spec.policy_table q)) /\
  (Spec.policy_table good = Spec.mk_policy false None None 3 100 30 /\
   Spec.policy_table poor = Spec.mk_policy true (Some 50) (Some 5) 2 50 15 /\
   Spec.policy_table very_poor
     = Spec.mk_policy true (Some 20) (Some 2) 1 30 10 /\
   Spec.policy_table offline
     = Spec.mk_policy true (Some 10) (Some 1) 1 20 5) /\
  (forall (E : env) (q : quality) (w : world),
     exists calls,
       gateway_calls (trace (snd (adjust_transmission_settings E q w))) =
       (gateway_calls (trace w) ++ calls)%list /\
       (forall a, In ("session-set", a) calls ->
                  a = Spec.arguments (Spec.policy_table q)) /\
       (count_method "session-set" calls <= 1)%nat /\
       (fst (adjust_transmission_settings E q w) = Ok tt ->
        count_method "session-set" calls = 1%nat)) /\
  (forall (E E' : env) (q : quality) (s s' : network_state) (a a' : json),
     In ("session-set", a)
        (gateway_calls
           (trace (snd (adjust_transmission_settings E q (mk_world s []))))) ->
     In ("session-set", a')
        (gateway_calls
           (trace (snd (adjust_transmission_settings E' q
                          (mk_world s' []))))) ->
     a = a') /\
  (Spec.arguments (Spec.policy_table good) =
     JObj [("alt-speed-enabled", JBool false);
           ("download-queue-size", JInt 3);
           ("peer-limit-global", JInt 100);
           ("peer-limit-per-torrent", JInt 30)] /\
   Spec.arguments (Spec.policy_table poor) =
     JObj [("alt-speed-enabled", JBool true);
           ("alt-speed-down", JInt 50);
           ("alt-speed-up", JInt 5);
           ("download-queue-size", JInt 2);
           ("peer-limit-global", JInt 50);
           ("peer-limit-per-torrent", JInt 15)] /\
   Spec.arguments (Spec.policy_table very_poor) =
     JObj [("alt-speed-enabled", JBool true);
           ("alt-speed-down", JInt 20);
           ("alt-speed-up", JInt 2);
           ("download-queue-size", JInt 1);
           ("peer-limit-global", JInt 30);
           ("peer-limit-per-torrent", JInt 10)] /\
   Spec.arguments (Spec.policy_table offline) =
     JObj [("alt-speed-enabled", JBool true);
           ("alt-speed-down", JInt 10);
           ("alt-speed-up", JInt 1);
           ("download-queue-size", JInt 1);
           ("peer-limit-global", JInt 20);
           ("peer-limit-per-torrent", JInt 5)]) /\
  (forall (E : env) (q : quality) (w : world),
     gateway_calls (trace (snd (adjust_transmission_settings E q w))) =
     (gateway_calls (trace w) ++
      match q with
      | offline =>
          ("torrent-stop", JObj []) ::
          match gateway_reply E "torrent-stop" with
          | Ok _ =>
              [("session-set", Spec.arguments (Spec.policy_table offline))]
          | Raise _ => []
          end
      | good =>
          if quality_eqb (connection_quality (ns w)) offline then
            ("torrent-start", JObj []) ::
            match gateway_reply E "torrent-start" with
            | Ok _ =>
                [("session-set", Spec.arguments (Spec.policy_table good))]
            | Raise _ => []
            end
          else [("session-set", Spec.arguments (Spec.policy_table good))]
      | _ => [("session-set", Spec.arguments (Spec.policy_table q))]
      end)%list) /\
  (forall (E : env) (q : quality) (w : world),
     fst (adjust_transmission_settings E q w) =
     match q with
     | offline =>
         match gateway_reply E "torrent-stop" with
         | Ok _ => discard (gateway_reply E "session-set")
         | Raise e => Raise e
         end
     | good =>
         if quality_eqb (connection_quality (ns w)) offline then
           match gateway_reply E "torrent-start" with
           | Ok _ => discard (gateway_reply E "session-set")
           | Raise e => Raise e
           end
         else discard (gateway_reply E "session-set")
     | _ => discard (gateway_reply E "session-set")
     end) /\
  (forall (E : env) (q : quality) (w : world),
     ns (snd (adjust_transmission_settings E q w)) =
     match q, gateway_reply E "torrent-stop" with
     | offline, Raise _ => ns w
     | _, _ => with_mode (Spec.bandwidth_of q) (ns w)
     end) /\
  (forall (E : env) (q : quality) (w : world),
     gateway_calls (trace (snd (adjust_transmission_settings E q w))) <>
     gateway_calls (trace w)).
Proof.
  assert (Htable : forall q,
            settings_of q = Spec.arguments (Spec.policy_table q))
    by (intros []; reflexivity).
  assert (Hexact : forall (E : env) (q : quality) (w : world),
     gateway_calls (trace (snd (adjust_transmission_settings E q w))) =
     (gateway_calls (trace w) ++
      match q with
      | offline =>
          ("torrent-stop", JObj []) ::
          match gateway_reply E "torrent-stop" with
          | Ok _ =>
              [("session-set", Spec.arguments (Spec.policy_table offline))]
          | Raise _ => []
          end
      | good =>
          if quality_eqb (connection_quality (ns w)) offline then
            ("torrent-start", JObj []) ::
            match gateway_reply E "torrent-start" with
            | Ok _ =>
                [("session-set", Spec.arguments (Spec.policy_table good))]
            | Raise _ => []
            end
          else [("session-set", Spec.arguments (Spec.policy_table good))]
      | _ => [("session-set", Spec.arguments (Spec.policy_table q))]
      end)%list).
  { intros E q w. destruct (adjust_spec E q w) as (evs & H & G).
    rewrite H. cbn [snd trace]. rewrite gateway_calls_app, G.
    f_equal. destruct q; reflexivity. }
  cut ((forall (E : env) (q : quality) (w : world),
          fst (adjust_transmission_settings E q w) =
          match q with
          | offline =>
              match gateway_reply E "torrent-stop" with
              | Ok _ => discard (gateway_reply E "session-set")
              | Raise e => Raise e
              end
          | good =>
              if quality_eqb (connection_quality (ns w)) offline then
                match gateway_reply E "torrent-start" with
                | Ok _ => discard (gateway_reply E "session-set")
                | Raise e => Raise e
                end
              else discard (gateway_reply E "session-set")
          | _ => discard (gateway_reply E "session-set")
          end) /\
       (forall (E : env) (q : quality) (w : world),
          ns (snd (adjust_transmission_settings E q w)) =
          match q, gateway_reply E "torrent-stop" with
          | offline, Raise _ => ns w
          | _, _ => with_mode (Spec.bandwidth_of q) (ns w)
          end) /\
       (forall (E : env) (q : quality) (w : world),
          gateway_calls (trace (snd (adjust_transmission_settings E q w))) <>
          gateway_calls (trace w))).
  2:{ split; [| split].
      - intros E q w. destruct (adjust_spec E q w) as (evs & H & _).
        rewrite H. reflexivity.
      - intros E q w. destruct (adjust_spec E q w) as (evs & H & _).
        rewrite H. reflexivity.
      - intros E q w Heq. rewrite Hexact in Heq.
        rewrite <- (app_nil_r (gateway_calls (trace w))) in Heq at 2.
        apply app_inv_head in Heq.
        destruct q; try discriminate Heq.
        destruct (quality_eqb (connection_quality (ns w)) offline);
          discriminate Heq. }
  intros Hrest.
  split; [exact Htable |]. split; [repeat split |].
  cut (forall (E : env) (q : quality) (w : world),
     exists calls,
       gateway_calls (trace (snd (adjust_transmission_settings E q w))) =
       (gateway_calls (trace w) ++ calls)%list /\
       (forall a, In ("session-set", a) calls ->
                  a = Spec.arguments (Spec.policy_table q)) /\
       (count_method "session-set" calls <= 1)%nat /\
       (fst (adjust_transmission_settings E q w) = Ok tt ->
        count_method "session-set" calls = 1%nat)).
  { intros Hcalls. split; [exact Hcalls |].
    split; [| split; [repeat split | split; [exact Hexact | exact Hrest]]].
    intros E E' q s s' a a' Ha Ha'.
    destruct (Hcalls E q (mk_world s [])) as (c & Hc & Hin & _).
    destruct (Hcalls E' q (mk_world s' [])) as (c' & Hc' & Hin' & _).
    rewrite Hc in Ha. rewrite Hc' in Ha'.
    rewrite (Hin a Ha), (Hin' a' Ha'). reflexivity. }
  intros E q w. destruct (adjust_spec E q w) as (evs & H & G).
  exists (gateway_calls evs).
  split; [rewrite H; apply gateway_calls_app |].
  rewrite G, <- Htable. clear G.
  assert (Hin : forall args : json,
            In ("session-set", args) [("session-set", settings_of q)] ->
            args = settings_of q).
  { intros args [Ha | []]. now inversion Ha. }
  assert (Hone : (forall args, In ("session-set", args)
                                 [("session-set", settings_of q)] ->
                               args = settings_of q) /\
                 (count_method "session-set"
                    [("session-set", settings_of q)] <= 1)%nat /\
                 (fst (adjust_transmission_settings E q w) = Ok tt ->
                  count_method "session-set"
                    [("session-set", settings_of q)] = 1%nat)).
  { split; [exact Hin |]. split; [apply Nat.le_refl | reflexivity]. }
  assert (Hpair : forall m : string,
            String.eqb m "session-set" = false ->
            (forall args, In ("session-set", args)
                            [(m, JObj []); ("session-set", settings_of q)] ->
                          args = settings_of q) /\
            (count_method "session-set"
               [(m, JObj []); ("session-set", settings_of q)] <= 1)%nat /\
            (fst (adjust_transmission_settings E q w) = Ok tt ->
             count_method "session-set"
               [(m, JObj []); ("session-set", settings_of q)] = 1%nat)).
  { intros m Hm. unfold count_method. simpl. rewrite Hm. simpl.
    split; [| split; [apply Nat.le_refl | reflexivity]].
    intros args [Ha | Ha]; [| now apply Hin].
    inversion Ha. subst m. discriminate. }
  destruct q; cbv iota; try exact Hone.
  - destruct (quality_eqb (connection_quality (ns w)) offline) eqn:Hq;
      [| exact Hone].
    destruct (gateway_reply E "torrent-start") as [j | e] eqn:Hr.
    + now apply Hpair.
    + split; [intros args [Ha | []]; discriminate |].
      split; [apply Nat.le_0_l |].
      intros Hok. exfalso.
      rewrite H in Hok. discriminate.
  - destruct (gateway_reply E "torrent-stop") as [j | e] eqn:Hr.
    + now apply Hpair.
    + split; [intros args [Ha | []]; discriminate |].
      split; [apply Nat.le_0_l |].
      intros Hok. exfalso.
      rewrite H in Hok. discriminate.
Qed.

Lemma settings_follow_policy_table_witness :
  (exists calls,
     gateway_calls
       (trace (snd (adjust_transmission_settings Sample.good_env poor
                      Sample.start))) =
     (gateway_calls (trace Sample.start) ++ calls)%list /\
     (forall a, In ("session-set", a) calls ->
                a = Spec.arguments (Spec.policy_table poor)) /\
     (count_method "session-set" calls <= 1)%nat /\
     (fst (adjust_transmission_settings Sample.good_env poor Sample.start)
        = Ok tt ->
      count_method "session-set" calls = 1%nat)) /\
  settings_of offline =
    JObj [("alt-speed-enabled", JBool true);
          ("alt-speed-down", JInt 10);
          ("alt-speed-up", JInt 1);
          ("download-queue-size", JInt 1);
          ("peer-limit-global", JInt 20);
          ("peer-limit-per-torrent", JInt 5)].
Proof.
  split.
  - apply (proj1 (proj2 (proj2 settings_follow_policy_table))).
  - apply (proj1 (proj2 (proj2 (proj2 settings_follow_policy_table)))
             Sample.offline_env Sample.offline_dead_daemon_env offline
             (ns Sample.start) (ns Sample.was_offline)).
    + vm_compute. right. left. reflexivity.
    + vm_compute. right. left. reflexivity.
Defined.

(** ** The bandwidth mode *)

(** A cycle in which the call of [torrent-stop] does not raise leaves the
    bandwidth mode that goes with the tier, if it found it so. *)
Lemma mode_follows_tier (E : env) (w : world) :
  bandwidth_mode (ns w) = Spec.bandwidth_of (connection_quality (ns w)) ->
  (forall e, gateway_reply E "torrent-stop" <> Raise e) ->
  let s := ns (snd (cycle E w)) in
  bandwidth_mode s = Spec.bandwidth_of (connection_quality s).
Proof.
  intros Hinv Hstop. cbv zeta. rewrite cycle_state_eq.
  unfold cycle_state, adjust_state.
  destruct (precheck E) as [[|] | e]; try exact Hinv.
  - destruct (measured E) as [[| | |] | e]; try reflexivity;
      try exact Hinv.
    destruct (gateway_reply E "torrent-stop") as [j | e];
      [reflexivity | now destruct (Hstop e)].
  - destruct (gateway_reply E "torrent-stop") as [j | e];
      [reflexivity | now destruct (Hstop e)].
Qed.

(** C7, which the code does not meet.  In the offline branch
    [pause_all_torrents] is called before the bandwidth mode is set.
    When the network is down and the daemon answers [torrent-stop] with
    status 200 and a body on which [response.json()] raises an exception
    that is not a [RequestException], the exception leaves
    [adjust_transmission_settings] before the assignment: the cycle ends
    with the tier offline and the mode still normal. *)
Theorem stale_mode_after_failed_pause :
  gateway_reply Sample.offline_bad_body_env "torrent-stop"
    = Raise JSONDecodeError /\
  isinstance JSONDecodeError RequestException = false /\
  ns Sample.start = mk_network_state 0 true good 0 normal /\
  ns (snd (cycle Sample.offline_bad_body_env Sample.start))
    = mk_network_state 0 false offline 1 normal /\
  Spec.bandwidth_of offline = minimal.
Proof. vm_compute. repeat split; reflexivity. Qed.

(** ** Pausing when offline *)

(** C8.  A cycle classified offline calls [torrent-stop] once, before
    every other call of the gateway; what may follow is the
    [session-set] with the offline settings and, after it, [torrent-get]. *)
Theorem offline_cycle_pauses_once (E : env) (w : world) :
  classification E = Some offline ->
  exists rest,
    gateway_calls (trace (snd (cycle E w))) =
    (gateway_calls (trace w) ++ ("torrent-stop", JObj []) :: rest)%list /\
    count_method "torrent-stop" (("torrent-stop", JObj []) :: rest) = 1%nat /\
    (rest = [] \/
     rest = [("session-set", settings_of offline)] \/
     rest = [("session-set", settings_of offline);
             ("torrent-get", torrent_fields)]).
Proof.
  intros Hc. rewrite cycle_calls_eq.
  unfold classification in Hc. unfold cycle_calls, adjust_calls,
    adjust_result.
  destruct (precheck E) as [[|] | e]; try discriminate.
  - destruct (measured E) as [q | e]; [| discriminate].
    inversion Hc. subst q.
    destruct (gateway_reply E "torrent-stop") as [j | e].
    + destruct (gateway_reply E "session-set") as [j' | e]; simpl;
        eexists; (split; [reflexivity |]); split; auto.
    + simpl. eexists. split; [reflexivity |]. split; auto.
  - destruct (gateway_reply E "torrent-stop") as [j | e];
      eexists; (split; [reflexivity |]); split; auto.
Qed.

Lemma offline_cycle_pauses_once_witness :
  exists rest,
    gateway_calls (trace (snd (cycle Sample.offline_env Sample.start))) =
    (gateway_calls (trace Sample.start)
     ++ ("torrent-stop", JObj []) :: rest)%list /\
    count_method "torrent-stop" (("torrent-stop", JObj []) :: rest) = 1%nat /\
    (rest = [] \/
     rest = [("session-set", settings_of offline)] \/
     rest = [("session-set", settings_of offline);
             ("torrent-get", torrent_fields)]).
Proof.
  apply (offline_cycle_pauses_once Sample.offline_env Sample.start).
  vm_compute. reflexivity.
Defined.

(** ** The loop *)

Lemma run_cycles_returns (envs : list env) :
  forall w, fst (run_cycles envs w) = Ok tt.
Proof.
  induction envs as [| E rest IH]; intros w; simpl; [reflexivity |].
  unfold bind. destruct (cycle E w) as [r w'] eqn:Hc.
  pose proof (cycle_returns E w) as Hr. rewrite Hc in Hr. simpl in Hr.
  subst r. apply IH.
Qed.

Lemma run_cycles_app (envs rest : list env) :
  forall w,
    run_cycles (envs ++ rest) w = run_cycles rest (snd (run_cycles envs w)).
Proof.
  induction envs as [| E envs IH]; intros w; simpl; [reflexivity |].
  unfold bind. destruct (cycle E w) as [r w'] eqn:Hc.
  pose proof (cycle_returns E w) as Hr. rewrite Hc in Hr. simpl in Hr.
  subst r. apply IH.
Qed.

(** C9.  An exception that leaves the body of a cycle is caught by the
    handler of the loop: the cycle logs an error, sleeps for
    [CHECK_INTERVAL] seconds and returns, keeping what the body had
    written.  So no number of cycles, in whatever environments, ends the
    loop, and the cycle after a failed one starts from the world that the
    failed one left. *)
Theorem loop_survives_every_exception :
  (forall (E : env) (w wb : world) (e : exn),
     cycle_body E w = (Raise e, wb) ->
     cycle E w =
       (Ok tt,
        mk_world (ns wb)
          (trace wb ++ [Log ERROR "Error in connection manager";
                        Sleep CHECK_INTERVAL]))) /\
  (forall (E : env) (w wb : world),
     cycle_body E w = (Ok tt, wb) ->
     cycle E w =
       (Ok tt, mk_world (ns wb) (trace wb ++ [Sleep CHECK_INTERVAL]))) /\
  (forall (envs : list env) (w : world), fst (main envs w) = Ok tt) /\
  (forall (envs : list env) (E : env) (rest : list env) (w : world),
     run_cycles (envs ++ E :: rest) w =
     run_cycles rest (snd (cycle E (snd (run_cycles envs w))))).
Proof.
  repeat split.
  - intros E w wb e Hb. unfold cycle, bind, try_except.
    rewrite Hb, isinstance_Exception. unfold log, emit. simpl.
    now rewrite <- app_assoc.
  - intros E w wb Hb. unfold cycle, bind, try_except.
    rewrite Hb. reflexivity.
  - intros envs w. unfold main.
    do 2 (erewrite bind_ok by reflexivity).
    apply run_cycles_returns.
  - intros envs E rest w. rewrite run_cycles_app. simpl.
    unfold bind. destruct (cycle E _) as [r w'] eqn:Hc.
    pose proof (cycle_returns E (snd (run_cycles envs w))) as Hr.
    rewrite Hc in Hr. simpl in Hr. now subst r.
Qed.

Lemma loop_survives_every_exception_witness :
  cycle Sample.no_ping_env Sample.start =
    (Ok tt,
     mk_world (ns Sample.start)
       ([Ping 1 "1.1.1.1"]
        ++ [Log ERROR "Error in connection manager"; Sleep CHECK_INTERVAL])).
Proof.
  apply (proj1 loop_survives_every_exception Sample.no_ping_env
           Sample.start (mk_world (ns Sample.start) [Ping 1 "1.1.1.1"])
           FileNotFoundError).
  vm_compute. reflexivity.
Defined.

(** A malformed answer to [torrent-get] raises in the report, after the
    state has been updated and the settings applied; the loop goes on. *)
Lemma malformed_listing_is_survived :
  fst (cycle_body Sample.odd_list_env Sample.start) = Raise AttributeError /\
  fst (cycle Sample.odd_list_env Sample.start) = Ok tt /\
  ns (snd (cycle Sample.odd_list_env Sample.start))
    = mk_network_state 1000 true good 0 normal /\
  logged ERROR (trace (snd (cycle Sample.odd_list_env Sample.start)))
    = ["Error in connection manager"].
Proof. vm_compute. repeat split; reflexivity. Qed.

(** Three cycles, the first two of which end with an exception: the loop
    sleeps after each of them. *)
Lemma three_cycles_sleep :
  fst (main [Sample.no_ping_env; Sample.odd_list_env; Sample.good_env]
         Sample.start) = Ok tt /\
  sleeps (trace (snd (main [Sample.no_ping_env; Sample.odd_list_env;
                            Sample.good_env] Sample.start)))
    = [10; 60; 60; 60].
Proof. vm_compute. split; reflexivity. Qed.

(** ** Gateway failures and the state *)

(** The probes do not depend on the daemon. *)
Lemma precheck_depends_on_ping (E E' : env) :
  ping E = ping E' -> precheck E = precheck E'.
Proof.
  destruct E, E'. simpl. intros ->. reflexivity.
Qed.

Lemma measured_depends_on_ping (E E' : env) :
  ping E = ping E' -> measured E = measured E'.
Proof.
  destruct E, E'. simpl. intros ->. reflexivity.
Qed.

Lemma gateway_fails_reply (E : env) (method : string) :
  gateway_fails E -> gateway_reply E method = Ok JNull.
Proof. intros H. apply H. Qed.

(** C10.  When every call of the gateway in a cycle comes back with no
    result, the cycle still records what it found: after a failed
    pre-check, not online, tier offline, one more reconnect attempt, mode
    minimal, and the time last online as it was; after a measurement,
    online, the time of the cycle, the measured tier, no reconnect
    attempts, and the mode of that tier.  A cycle that an exception of
    the probes ends before the update leaves the state as it was. *)
Theorem state_update_survives_gateway_failure (E : env) (w : world) :
  gateway_fails E ->
  fst (cycle E w) = Ok tt /\
  ns (snd (cycle E w)) =
    match precheck E with
    | Ok false =>
        mk_network_state (last_online (ns w)) false offline
          (reconnect_count (ns w) + 1) minimal
    | Ok true =>
        match measured E with
        | Ok q => mk_network_state (clock E) true q 0 (Spec.bandwidth_of q)
        | Raise _ => ns w
        end
    | Raise _ => ns w
    end /\
  (forall E' : env,
     ping E' = ping E -> clock E' = clock E ->
     (forall method e, gateway_reply E' method <> Raise e) ->
     ns (snd (cycle E' w)) = ns (snd (cycle E w))).
Proof.
  intros Hfail. split; [apply cycle_returns |].
  rewrite !cycle_state_eq. unfold cycle_state, adjust_state.
  rewrite (gateway_fails_reply E "torrent-stop" Hfail).
  split.
  - destruct (precheck E) as [[|] | e]; try reflexivity.
    destruct (measured E) as [[| | |] | e]; reflexivity.
  - intros E' Hping Hclock Hreply. rewrite cycle_state_eq.
    unfold cycle_state, adjust_state.
    rewrite (precheck_depends_on_ping E' E Hping),
      (measured_depends_on_ping E' E Hping), Hclock.
    destruct (gateway_reply E' "torrent-stop") as [j | e] eqn:Hstop;
      [reflexivity | now destruct (Hreply "torrent-stop" e)].
Qed.

Lemma state_update_survives_gateway_failure_witness :
  fst (cycle Sample.poor_dead_daemon_env Sample.start) = Ok tt /\
  ns (snd (cycle Sample.poor_dead_daemon_env Sample.start)) =
    match precheck Sample.poor_dead_daemon_env with
    | Ok false =>
        mk_network_state (last_online (ns Sample.start)) false offline
          (reconnect_count (ns Sample.start) + 1) minimal
    | Ok true =>
        match measured Sample.poor_dead_daemon_env with
        | Ok q => mk_network_state (clock Sample.poor_dead_daemon_env) true q 0 (Spec.bandwidth_of q)
        | Raise _ => ns Sample.start
        end
    | Raise _ => ns Sample.start
    end /\
  (forall E' : env,
     ping E' = ping Sample.poor_dead_daemon_env -> clock E' = clock Sample.poor_dead_daemon_env ->
     (forall method e, gateway_reply E' method <> Raise e) ->
     ns (snd (cycle E' Sample.start)) = ns (snd (cycle Sample.poor_dead_daemon_env Sample.start))).
Proof.
  apply (state_update_survives_gateway_failure
           Sample.poor_dead_daemon_env Sample.start).
  intros method arguments w. reflexivity.
Defined.

(** With a daemon that hands out no session, a cycle that measures a poor
    link and a cycle that finds the network down both leave the state
    fully updated. *)
Lemma dead_daemon_cycles :
  ns (snd (cycle Sample.poor_dead_daemon_env Sample.start))
    = mk_network_state 1000 true poor 0 conservative /\
  ns (snd (cycle Sample.offline_dead_daemon_env Sample.start))
    = mk_network_state 0 false offline 1 minimal.
Proof. vm_compute. split; reflexivity. Qed.

(** * Further properties *)

(** ** The pre-check *)

Lemma check_host_unreachable (E : env) (host : string) :
  unreachable (ping E 1 host) = true ->
  yields (check_host E host) (Ok false) [Ping 1 host].
Proof.
  unfold unreachable, check_host, run_ping.
  destruct (ping E 1 host) as [returncode stdout | e]; intros H.
  - apply negb_true_iff in H. run.
  - run.
Qed.

Lemma check_host_reached (E : env) (host stdout : string) :
  ping E 1 host = Completed 0 stdout ->
  yields (check_host E host) (Ok true) [Ping 1 host].
Proof.
  intros H. unfold check_host, run_ping. rewrite H. run.
Qed.

(** The pre-check stops at the first host that answers: the hosts before
    it are probed once each, in order, whether they fail or time out,
    and the hosts after it are not probed. *)
Theorem precheck_stops_at_first_answer
  (E : env) (before after : list string) (host stdout : string) (w : world) :
  Forall (fun h => unreachable (ping E 1 h) = true) before ->
  ping E 1 host = Completed 0 stdout ->
  check_hosts E (before ++ host :: after) w =
    (Ok true,
     mk_world (ns w)
       (trace w ++ map (Ping 1) (before ++ [host]))).
Proof.
  intros Hb Hh. revert w.
  induction Hb as [| h l Hu _ IH]; intros w; simpl.
  - erewrite bind_ok by apply (check_host_reached E host stdout Hh).
    reflexivity.
  - erewrite bind_ok by apply (check_host_unreachable E h Hu).
    cbv iota. rewrite IH. simpl. now rewrite <- app_assoc.
Qed.

Lemma precheck_stops_at_first_answer_witness :
  check_network_connectivity
    (mk_env (fun _ host => if String.eqb host "8.8.8.8"
                           then Completed 0 "" else RunRaises TimeoutExpired)
       0 Sample.daemon_get Sample.daemon_post) Sample.start =
    (Ok true,
     mk_world (ns Sample.start)
       (trace Sample.start ++ map (Ping 1) (["1.1.1.1"] ++ ["8.8.8.8"]))).
Proof.
  apply (precheck_stops_at_first_answer _ ["1.1.1.1"] [] "8.8.8.8" "").
  - constructor; [reflexivity | constructor].
  - reflexivity.
Defined.

(** When no host answers, whether the probes fail or time out, the
    pre-check returns [False] after probing every host once, in order. *)
Theorem precheck_fails_after_all_hosts
  (E : env) (hosts : list string) (w : world) :
  Forall (fun h => unreachable (ping E 1 h) = true) hosts ->
  check_hosts E hosts w =
    (Ok false, mk_world (ns w) (trace w ++ map (Ping 1) hosts)).
Proof.
  intros Hb. revert w.
  induction Hb as [| h l Hu _ IH]; intros w; simpl.
  - unfold ret. rewrite app_nil_r. now destruct w.
  - erewrite bind_ok by apply (check_host_unreachable E h Hu).
    cbv iota. rewrite IH. simpl. now rewrite <- app_assoc.
Qed.

Lemma precheck_fails_after_all_hosts_witness :
  check_network_connectivity
    (mk_env (fun _ host => if String.eqb host "8.8.8.8"
                           then Completed 2 "" else RunRaises TimeoutExpired)
       0 Sample.daemon_get Sample.daemon_post) Sample.start =
    (Ok false,
     mk_world (ns Sample.start)
       (trace Sample.start ++ map (Ping 1) PING_HOSTS)).
Proof.
  apply (precheck_fails_after_all_hosts _ PING_HOSTS).
  repeat constructor.
Defined.

(** ** The measurement *)

Lemma pings_app (l1 l2 : list event) :
  pings (l1 ++ l2) = (pings l1 ++ pings l2)%list.
Proof. apply flat_map_app. Qed.

Lemma measure_host_survives (E : env) (acc : pyfloat * nat) (host : string) :
  survivable (ping E 3 host) = true ->
  exists acc' evs,
    yields (measure_host E acc host) (Ok acc') evs /\
    pings evs = [(3, host)].
Proof.
  destruct acc as [total n].
  unfold survivable, measure_host, run_ping.
  destruct (ping E 3 host) as [returncode output | e]; intros Hs.
  - destruct (returncode =? 0) eqn:Hrc.
    + destruct (parse_ping_output output) as [[t |] | e] eqn:Hparse.
      * exists (add total t, S n), [Ping 3 host]. split; [run | reflexivity].
      * exists (total, n), [Ping 3 host]. split; [run | reflexivity].
      * assert (Hi : isinstance_any e [ValueError; IndexError] = true)
          by (destruct (parse_raises _ _ Hparse); subst; reflexivity).
        exists (add total (of_Z 1000), S n),
          [Ping 3 host; Log WARNING "Could not parse ping output";
           Log DEBUG "Ping output was"].
        split; [run | reflexivity].
    + exists (total, n), [Ping 3 host]. split; [run | reflexivity].
  - exists (total, n), [Ping 3 host; Log WARNING "Ping to host failed"].
    split; [run | reflexivity].
Qed.

Lemma classify_quiet (total : pyfloat) (n : nat) :
  exists q evs,
    yields (classify (total, n)) (Ok q) evs /\ pings evs = [].
Proof.
  unfold classify. destruct n as [| n].
  - exists offline, []. split; [apply yields_ret | reflexivity].
  - destruct (ltb (div_count total (S n)) (of_Z 200)) eqn:H200;
      [| destruct (ltb (div_count total (S n)) (of_Z 500)) eqn:H500];
      eexists; exists [Log INFO "Average ping time"];
      (split; [run | reflexivity]).
Qed.

(** A host whose probe fails or times out does not end the measurement:
    when every probe completes or raises a [SubprocessError], the
    measurement returns a tier after probing every host once, in order,
    with three packets. *)
Theorem measurement_probes_every_host (E : env) (w : world) :
  Forall (fun h => survivable (ping E 3 h) = true) PING_HOSTS ->
  exists q evs,
    measure_connection_quality E w =
      (Ok q, mk_world (ns w) (trace w ++ evs)) /\
    pings evs = map (fun h => (3, h)) PING_HOSTS.
Proof.
  intros Hall.
  assert (Hloop : forall hosts,
            Forall (fun h => survivable (ping E 3 h) = true) hosts ->
            forall acc, exists acc' evs,
              yields (measure_hosts E acc hosts) (Ok acc') evs /\
              pings evs = map (fun h => (3, h)) hosts).
  { intros hosts Hs.
    induction Hs as [| h l Hh _ IH]; intros acc; simpl.
    - exists acc, []. split; [apply yields_ret | reflexivity].
    - destruct (measure_host_survives E acc h Hh) as (acc1 & evs1 & H1 & P1).
      destruct (IH acc1) as (acc2 & evs2 & H2 & P2).
      exists acc2, (evs1 ++ evs2)%list. split.
      + eapply yields_bind_ok; [exact H1 | exact H2].
      + rewrite pings_app, P1, P2. reflexivity. }
  destruct (Hloop PING_HOSTS Hall (of_Z 0, O)) as (acc & evs1 & H1 & P1).
  destruct acc as [total n].
  destruct (classify_quiet total n) as (q & evs2 & H2 & P2).
  exists q, (evs1 ++ evs2)%list. split.
  - unfold measure_connection_quality.
    erewrite bind_ok by apply H1. rewrite H2. simpl.
    now rewrite <- app_assoc.
  - rewrite pings_app, P1, P2, app_nil_r. reflexivity.
Qed.

Lemma measurement_probes_every_host_witness :
  exists q evs,
    measure_connection_quality
      (mk_env (fun _ host => if String.eqb host "1.1.1.1"
                             then RunRaises TimeoutExpired
                             else Completed 0 (Sample.busybox "40.000"))
         0 Sample.daemon_get Sample.daemon_post) Sample.start =
      (Ok q, mk_world (ns Sample.start) (trace Sample.start ++ evs)) /\
    pings evs = map (fun h => (3, h)) PING_HOSTS.
Proof.
  apply measurement_probes_every_host. repeat constructor.
Defined.

Lemma samples_of_raises (E : env) (hosts : list string) (e : exn) :
  samples_of E hosts = Raise e ->
  exists host,
    In host hosts /\ ping E 3 host = RunRaises e /\
    isinstance_any e [SubprocessError; TimeoutExpired] = false.
Proof.
  induction hosts as [| h rest IH]; simpl; [discriminate |].
  destruct (sample E h) as [o | e'] eqn:Hs; simpl.
  - destruct (samples_of E rest) as [xs | e'']; simpl; [discriminate |].
    intros H. inversion H. subst e''.
    destruct (IH eq_refl) as (host & Hin & Hp & Hi).
    exists host. auto.
  - intros H. inversion H. subst e'. exists h. split; [now left |].
    unfold sample in Hs.
    destruct (ping E 3 h) as [returncode output | e'].
    + destruct (returncode =? 0); [| discriminate].
      destruct (parse_ping_output output) as [o | e'] eqn:Hparse;
        [discriminate |].
      destruct (parse_raises _ _ Hparse); subst; discriminate.
    + destruct (isinstance_any e' [SubprocessError; TimeoutExpired]) eqn:Hi;
        [discriminate |].
      inversion Hs. subst e'. auto.
Qed.

(** The only exceptions that leave [measure_connection_quality] are
    those that [subprocess.run] raised and that are not
    [SubprocessError]s; no output of [ping], however malformed, makes
    the measurement raise. *)
Theorem measurement_raises_only_probe_errors
  (E : env) (w : world) (e : exn) :
  fst (measure_connection_quality E w) = Raise e ->
  exists host,
    In host PING_HOSTS /\ ping E 3 host = RunRaises e /\
    isinstance_any e [SubprocessError; TimeoutExpired] = false.
Proof.
  rewrite measure_result. intros H.
  apply samples_of_raises. unfold samples in H.
  destruct (samples_of E PING_HOSTS); [discriminate |].
  inversion H. reflexivity.
Qed.

Lemma measurement_raises_only_probe_errors_witness :
  exists host,
    In host PING_HOSTS /\
    ping Sample.no_ping_env 3 host = RunRaises FileNotFoundError /\
    isinstance_any FileNotFoundError [SubprocessError; TimeoutExpired]
      = false.
Proof.
  apply (measurement_raises_only_probe_errors Sample.no_ping_env
           Sample.start FileNotFoundError).
  vm_compute. reflexivity.
Defined.

(** Neither the pre-check nor the measurement changes [network_state] or
    calls the gateway, whatever the probes do. *)
Theorem probes_leave_state_and_gateway_alone (E : env) (w : world) :
  (ns (snd (check_network_connectivity E w)) = ns w /\
   gateway_calls (trace (snd (check_network_connectivity E w)))
     = gateway_calls (trace w)) /\
  (ns (snd (measure_connection_quality E w)) = ns w /\
   gateway_calls (trace (snd (measure_connection_quality E w)))
     = gateway_calls (trace w)).
Proof.
  destruct (precheck_yields E) as (evs & H & G).
  destruct (measure_yields E) as (evs' & H' & G').
  rewrite H, H'. simpl.
  rewrite !gateway_calls_app, G, G', !app_nil_r. auto.
Qed.

(** ** The gateway *)

Ltac rpc_cases E method :=
  unfold transmission_rpc_call, get_transmission_session_id;
  destruct (http_get E method) as [status hdr | eg] eqn:Hget;
  [ destruct (status =? 409) eqn:H409;
    [ destruct hdr as [sid |];
      [ destruct (String.eqb sid "") eqn:Hsid;
        [ | destruct (http_post E method) as [pstatus body | ep] eqn:Hpost;
            [ destruct (pstatus =? 200) eqn:H200;
              [ destruct body as [j | eb];
                [ | destruct (isinstance_any eb [RequestException]) eqn:Hib ]
              | ]
            | destruct (isinstance_any ep [RequestException]) eqn:Hip ] ]
      | ]
    | ]
  | destruct (isinstance_any eg [RequestException]) eqn:Hig ].

Ltac run_rpc :=
  unfold bind, try_except, emit, log, ret, raise, lift; simpl;
  repeat match goal with
         | H : _ = _ |- _ => rewrite H; simpl
         end;
  rewrite <- ?app_assoc; simpl.

(** A call of the gateway sends one GET for the session id and then at
    most one POST: the POST is sent only when the GET was answered with
    status 409 and a non-empty session id, it carries that id and the
    method and arguments of the call, and nothing is sent again after a
    failure.  The call never changes [network_state]. *)
Theorem gateway_call_requests
  (E : env) (method : string) (arguments : json) (w : world) :
  exists evs,
    snd (transmission_rpc_call E method arguments w) =
      mk_world (ns w) (trace w ++ evs) /\
    (http_requests evs = [HttpGet] \/
     exists sid,
       sid <> "" /\
       http_get E method = GetResponse 409 (Some sid) /\
       http_requests evs = [HttpGet; HttpPost sid method arguments]).
Proof.
  rpc_cases E method;
    eexists; (split; [run_rpc; reflexivity |]);
    try apply Z.eqb_eq in H409; subst;
    try (apply String.eqb_neq in Hsid);
    first [ left; reflexivity
          | right; exists sid; repeat split; auto ].
Qed.



(** ** The list of torrents *)

(** [get_torrent_list] gives the empty list when the call of the
    gateway returns [None] and when the reply is a dictionary without
    ["arguments"].  When ["arguments"] is a dictionary, it gives the
    value under ["torrents"] if the key is there and the empty list if
    it is missing.  When ["arguments"] is there and is not a dictionary,
    the test [in] decides: the call raises [TypeError] on [null], a
    boolean and a number, and on a list or a string that contains
    ["torrents"], and gives the empty list on a list or a string that
    does not. *)
Theorem torrent_list_of_reply (E : env) (w : world) :
  (gateway_reply E "torrent-get" = Ok JNull ->
   fst (get_torrent_list E w) = Ok (JArr [])) /\
  (forall l,
     gateway_reply E "torrent-get" = Ok (JObj l) ->
     lookup "arguments" l = None ->
     fst (get_torrent_list E w) = Ok (JArr [])) /\
  (forall l l',
     gateway_reply E "torrent-get" = Ok (JObj l) ->
     lookup "arguments" l = Some (JObj l') ->
     fst (get_torrent_list E w) =
       Ok (match lookup "torrents" l' with
           | Some torrents => torrents
           | None => JArr []
           end)) /\
  (forall l a,
     gateway_reply E "torrent-get" = Ok (JObj l) ->
     lookup "arguments" l = Some a ->
     (forall l', a <> JObj l') ->
     fst (get_torrent_list E w) =
       match a with
       | JArr items =>
           if existsb (is_str "torrents") items
           then Raise TypeError else Ok (JArr [])
       | JStr s =>
           if contains "torrents" s then Raise TypeError else Ok (JArr [])
       | _ => Raise TypeError
       end).
Proof.
  destruct (rpc_yields E "torrent-get" torrent_fields) as (evs & H & _).
  unfold get_torrent_list.
  split; [| split; [| split]].
  4:{ intros l a Hr Hl Hna. rewrite Hr in H.
      erewrite bind_ok by apply H. cbv beta.
      unfold py_in, subscript, truthy. rewrite Hl.
      destruct l as [| kv l0]; [discriminate |].
      destruct a as [| b | z | x | s | items | l'];
        try reflexivity.
      - cbn [lift rbind]. unfold bind, lift.
        destruct (contains "torrents" s); reflexivity.
      - cbn [lift rbind]. unfold bind, lift.
        destruct (existsb (is_str "torrents") items); reflexivity.
      - now destruct (Hna l'). }
  - intros Hr. rewrite Hr in H.
    erewrite bind_ok by apply H. reflexivity.
  - intros l Hr Hl. rewrite Hr in H.
    erewrite bind_ok by apply H. cbv beta.
    unfold py_in, truthy. rewrite Hl.
    destruct l; reflexivity.
  - intros l l' Hr Hl. rewrite Hr in H.
    erewrite bind_ok by apply H. cbv beta.
    unfold py_in, subscript, truthy. rewrite Hl.
    destruct l as [| kv l0]; [discriminate |].
    simpl. destruct (lookup "torrents" l'); reflexivity.
Qed.

Lemma torrent_list_of_reply_witness :
  fst (get_torrent_list Sample.good_env Sample.start) =
    Ok (match lookup "torrents"
                [("torrents",
                  JArr [JObj [("id", JInt 1);
                              ("rateDownload", JInt 2048);
                              ("rateUpload", JInt 0)]])] with
        | Some torrents => torrents
        | None => JArr []
        end) /\
  fst (get_torrent_list Sample.null_arguments_env Sample.start) =
    Raise TypeError.
Proof.
  split.
  - apply (proj1 (proj2 (proj2 (torrent_list_of_reply Sample.good_env
                                  Sample.start)))
             [("arguments",
               JObj [("torrents",
                      JArr [JObj [("id", JInt 1);
                                  ("rateDownload", JInt 2048);
                                  ("rateUpload", JInt 0)]])]);
              ("result", JStr "success")]);
      reflexivity.
  - apply (proj2 (proj2 (proj2 (torrent_list_of_reply
                                  Sample.null_arguments_env Sample.start)))
             [("arguments", JNull); ("result", JStr "success")] JNull).
    + reflexivity.
    + reflexivity.
    + discriminate.
Defined.

Lemma count_flags (key : string) (ts : list json) :
  Forall (fun t => integer_rate key t <> None) ts ->
  map_result (fun t => let? rate := dict_get t key in positive rate) ts
  = Ok (map (rate_is_positive key) ts).
Proof.
  induction 1 as [| t l Ht _ IH]; simpl; [reflexivity |].
  rewrite IH. unfold rate_is_positive, integer_rate in *.
  destruct t as [| | | | | | d]; try congruence. simpl.
  destruct (lookup key d) as [[| | z | | | |] |]; try congruence;
    reflexivity.
Qed.

(** Counting the active torrents.  For a list of torrents that are
    dictionaries whose rate is an integer or is missing, the count is
    the number of torrents with a positive rate, a missing rate counting
    as 0; it never exceeds the number of torrents. *)
Theorem active_count_of_rates (key : string) (ts : list json) :
  Forall (fun t => integer_rate key t <> None) ts ->
  exists n,
    count_active key (JArr ts) = Ok n /\
    n = List.length (filter (rate_is_positive key) ts) /\
    (n <= List.length ts)%nat.
Proof.
  intros Hts. unfold count_active. simpl.
  rewrite (count_flags key ts Hts). simpl.
  eexists. split; [reflexivity |].
  assert (Hlen : forall l : list json,
            List.length (filter (fun b : bool => b)
                           (map (rate_is_positive key) l))
            = List.length (filter (rate_is_positive key) l)).
  { induction l as [| t l IH]; simpl; [reflexivity |].
    destruct (rate_is_positive key t); simpl; now rewrite IH. }
  rewrite Hlen. split; [reflexivity | apply filter_length_le].
Qed.

Lemma active_count_of_rates_witness :
  exists n,
    count_active "rateDownload"
      (JArr [JObj [("id", JInt 1); ("rateDownload", JInt 2048)];
             JObj [("id", JInt 2)];
             JObj [("id", JInt 3); ("rateDownload", JInt 0)]]) = Ok n /\
    n = List.length
          (filter (rate_is_positive "rateDownload")
             [JObj [("id", JInt 1); ("rateDownload", JInt 2048)];
              JObj [("id", JInt 2)];
              JObj [("id", JInt 3); ("rateDownload", JInt 0)]]) /\
    (n <= 3)%nat.
Proof.
  apply (active_count_of_rates "rateDownload"
           [JObj [("id", JInt 1); ("rateDownload", JInt 2048)];
            JObj [("id", JInt 2)];
            JObj [("id", JInt 3); ("rateDownload", JInt 0)]]).
  repeat constructor; discriminate.
Defined.

(** A torrent that is not a dictionary, or a rate that is not a number,
    makes the count raise: [AttributeError] for the first, [TypeError]
    for the second. *)
Theorem active_count_raises (key : string) (t : json) (ts : list json) :
  ((forall l, t <> JObj l) ->
   count_active key (JArr (t :: ts)) = Raise AttributeError) /\
  (forall l s,
     t = JObj l -> lookup key l = Some (JStr s) ->
     count_active key (JArr (t :: ts)) = Raise TypeError).
Proof.
  split.
  - intros Ht. unfold count_active. simpl.
    destruct t; try reflexivity. now destruct (Ht l).
  - intros l s -> Hl. unfold count_active. simpl. now rewrite Hl.
Qed.

Lemma active_count_raises_witness :
  count_active "rateUpload" (JArr [JInt 7]) = Raise AttributeError.
Proof.
  apply (proj1 (active_count_raises "rateUpload" (JInt 7) [])).
  discriminate.
Defined.

(** ** Cycles and runs *)

Lemma adjust_resumes_when_recorded_offline_witness :
  exists rest,
    gateway_calls
      (trace (snd (adjust_transmission_settings Sample.good_env good
                     Sample.was_offline))) =
    (gateway_calls (trace Sample.was_offline)
     ++ ("torrent-start", JObj []) :: rest)%list.
Proof.
  apply (adjust_resumes_when_recorded_offline Sample.good_env
           Sample.was_offline).
  reflexivity.
Defined.

(** A cycle classified good, poor or very poor never pauses or resumes:
    it applies the settings of its tier, whether or not they changed,
    and then lists the torrents unless applying them raised. *)
Theorem online_cycle_reapplies_settings
  (E : env) (w : world) (q : quality) :
  classification E = Some q -> q <> offline ->
  exists rest,
    gateway_calls (trace (snd (cycle E w))) =
    (gateway_calls (trace w) ++ ("session-set", settings_of q) :: rest)%list /\
    (rest = [] \/ rest = [("torrent-get", torrent_fields)]).
Proof.
  intros Hc Hq. rewrite cycle_calls_eq.
  unfold classification in Hc. unfold cycle_calls, adjust_calls,
    adjust_result.
  destruct (precheck E) as [[|] | e]; try discriminate.
  - destruct (measured E) as [q' | e]; [| discriminate].
    inversion Hc. subst q'.
    destruct q; try congruence;
      destruct (gateway_reply E "session-set") as [j | e]; simpl;
      eexists; (split; [reflexivity |]); auto.
  - inversion Hc. congruence.
Qed.

Lemma online_cycle_reapplies_settings_witness :
  exists rest,
    gateway_calls (trace (snd (cycle Sample.good_env Sample.start))) =
    (gateway_calls (trace Sample.start)
     ++ ("session-set", settings_of good) :: rest)%list /\
    (rest = [] \/ rest = [("torrent-get", torrent_fields)]).
Proof.
  apply (online_cycle_reapplies_settings Sample.good_env Sample.start good).
  - vm_compute. reflexivity.
  - discriminate.
Defined.

Lemma consistent_step (E : env) (w : world) :
  consistent (ns w) -> consistent (ns (snd (cycle E w))).
Proof.
  intros (Hnn & Hiff & Hoff). rewrite cycle_state_eq.
  unfold cycle_state, adjust_state, consistent.
  destruct (precheck E) as [[|] | e]; [| | auto].
  - destruct (measured E) as [[| | |] | e]; auto;
      try (simpl; repeat split; auto; try lia; discriminate).
    destruct (gateway_reply E "torrent-stop"); simpl;
      repeat split; auto; try lia; discriminate.
  - destruct (gateway_reply E "torrent-stop"); simpl;
      (split; [lia |]); (split; [| reflexivity]);
      (split; [discriminate | lia]).
Qed.

(** Along every run from the initial state, whatever the probes and the
    daemon do: the reconnect counter is never negative, it is 0 exactly
    when [is_online] is true, and when [is_online] is false the recorded
    tier is offline. *)
Theorem state_stays_consistent (envs : list env) (t0 : Q) :
  Forall consistent (history envs (mk_world (initial_state t0) [])).
Proof.
  assert (H : forall w, consistent (ns w) ->
                        Forall consistent (history envs w)).
  { induction envs as [| E rest IH]; intros w Hw; simpl; constructor.
    - now apply consistent_step.
    - apply IH. now apply consistent_step. }
  apply H. unfold consistent. simpl.
  repeat split; auto; try lia; discriminate.
Qed.

(** Along a run in which no call of [torrent-stop] raises, the bandwidth
    mode is the one that goes with the recorded tier after every cycle. *)
Theorem mode_follows_tier_along_runs (envs : list env) (t0 : Q) :
  Forall (fun E => forall e, gateway_reply E "torrent-stop" <> Raise e)
    envs ->
  Forall (fun s => bandwidth_mode s
                   = Spec.bandwidth_of (connection_quality s))
    (history envs (mk_world (initial_state t0) [])).
Proof.
  intros Hall.
  assert (H : forall w,
            bandwidth_mode (ns w)
              = Spec.bandwidth_of (connection_quality (ns w)) ->
            Forall (fun s => bandwidth_mode s
                             = Spec.bandwidth_of (connection_quality s))
              (history envs w)).
  { induction Hall as [| E rest HE _ IH]; intros w Hw; simpl; constructor.
    - now apply mode_follows_tier.
    - apply IH. now apply mode_follows_tier. }
  apply H. reflexivity.
Qed.

Lemma mode_follows_tier_along_runs_witness :
  Forall (fun s => bandwidth_mode s
                   = Spec.bandwidth_of (connection_quality s))
    (history [Sample.offline_env; Sample.flapping_env; Sample.iputils_env]
       (mk_world (initial_state 0) [])).
Proof.
  apply (mode_follows_tier_along_runs
           [Sample.offline_env; Sample.flapping_env; Sample.iputils_env] 0).
  repeat constructor; intros e; vm_compute; discriminate.
Defined.

(** ** Sleeping *)

Section Quiet.

Context {X : Type} (f : event -> list X).

Lemma quiet_ret {A : Type} (a : A) : adds_nothing f (ret a).
Proof. intros w. reflexivity. Qed.

Lemma quiet_raise {A : Type} (e : exn) : adds_nothing f (@raise A e).
Proof. intros w. reflexivity. Qed.

Lemma quiet_lift {A : Type} (r : result A) : adds_nothing f (lift r).
Proof. intros w. reflexivity. Qed.

Lemma quiet_get_state : adds_nothing f get_state.
Proof. intros w. reflexivity. Qed.

Lemma quiet_put_state (s : network_state) : adds_nothing f (put_state s).
Proof. intros w. reflexivity. Qed.

Lemma quiet_emit (ev : event) : f ev = [] -> adds_nothing f (emit ev).
Proof.
  intros H w. unfold emit. simpl.
  rewrite flat_map_app. simpl. rewrite H. now rewrite !app_nil_r.
Qed.

Lemma quiet_bind {A B : Type} (c : M A) (k : A -> M B) :
  adds_nothing f c -> (forall a, adds_nothing f (k a)) ->
  adds_nothing f (bind c k).
Proof.
  intros Hc Hk w. unfold bind. specialize (Hc w).
  destruct (c w) as [[a | e] w']; simpl in *.
  - now rewrite Hk.
  - exact Hc.
Qed.

Lemma quiet_try {A : Type} (c : M A) (classes : list exn)
  (handler : exn -> M A) :
  adds_nothing f c -> (forall e, adds_nothing f (handler e)) ->
  adds_nothing f (try_except c classes handler).
Proof.
  intros Hc Hh w. unfold try_except. specialize (Hc w).
  destruct (c w) as [[a | e] w']; simpl in *.
  - exact Hc.
  - destruct (isinstance_any e classes); simpl.
    + now rewrite Hh.
    + exact Hc.
Qed.

End Quiet.

Create HintDb quiet.

#[local] Hint Resolve quiet_ret quiet_raise quiet_lift quiet_get_state
  quiet_put_state : quiet.

(** Decomposes a goal [adds_nothing sleep_of c] along the shape of [c]. *)
Ltac quiet :=
  repeat first
    [ solve [auto with quiet]
    | apply quiet_emit; reflexivity
    | apply quiet_bind; [| intro]
    | apply quiet_try; [| intro]
    | match goal with
      | |- adds_nothing _ (match ?x with _ => _ end) => destruct x
      | |- adds_nothing _ (let (_, _) := ?x in _) => destruct x
      end ].

Lemma sleepless_run_ping (E : env) (count : Z) (host : string) :
  adds_nothing sleep_of (run_ping E count host).
Proof. unfold run_ping. quiet. Qed.
#[local] Hint Resolve sleepless_run_ping : quiet.

Lemma sleepless_check (E : env) :
  adds_nothing sleep_of (check_network_connectivity E).
Proof.
  unfold check_network_connectivity.
  induction PING_HOSTS as [| h l IH]; simpl; [quiet |].
  apply quiet_bind; [unfold check_host; quiet |].
  intros []; [quiet | exact IH].
Qed.
#[local] Hint Resolve sleepless_check : quiet.

Lemma sleepless_measure (E : env) :
  adds_nothing sleep_of (measure_connection_quality E).
Proof.
  unfold measure_connection_quality.
  apply quiet_bind.
  - generalize (of_Z 0, O).
    induction PING_HOSTS as [| h l IH]; intros acc; simpl; [quiet |].
    apply quiet_bind; [unfold measure_host, log; quiet |].
    intros acc'. apply IH.
  - intros acc. unfold classify, log. quiet.
Qed.
#[local] Hint Resolve sleepless_measure : quiet.

Lemma sleepless_rpc (E : env) (method : string) (arguments : json) :
  adds_nothing sleep_of (transmission_rpc_call E method arguments).
Proof.
  unfold transmission_rpc_call, get_transmission_session_id, log. quiet.
Qed.
#[local] Hint Resolve sleepless_rpc : quiet.

Lemma sleepless_adjust (E : env) (q : quality) :
  adds_nothing sleep_of (adjust_transmission_settings E q).
Proof.
  unfold adjust_transmission_settings, pause_all_torrents,
    resume_all_torrents, set_bandwidth_mode, read_connection_quality, log.
  quiet.
Qed.
#[local] Hint Resolve sleepless_adjust : quiet.

Lemma sleepless_body (E : env) : adds_nothing sleep_of (cycle_body E).
Proof.
  unfold cycle_body, get_torrent_list, set_is_online, set_last_online,
    set_connection_quality, set_reconnect_count, read_reconnect_count, log.
  quiet.
Qed.

Lemma sleeps_flat_map (tr : list event) : sleeps tr = flat_map sleep_of tr.
Proof. reflexivity. Qed.

Lemma cycle_sleeps (E : env) (w : world) :
  sleeps (trace (snd (cycle E w))) = (sleeps (trace w) ++ [CHECK_INTERVAL])%list.
Proof.
  unfold cycle, bind.
  pose proof (quiet_try sleep_of (cycle_body E) [Exception]
                (fun _ => log ERROR "Error in connection manager")
                (sleepless_body E)) as Hq.
  assert (Hh : forall e : exn,
            adds_nothing sleep_of (log ERROR "Error in connection manager"))
    by (intros e; unfold log; quiet).
  specialize (Hq Hh w).
  destruct (try_except _ _ _ w) as [[[] | e] w'] eqn:Ht; simpl in *.
  - rewrite !sleeps_flat_map, flat_map_app, Hq. reflexivity.
  - exfalso. unfold try_except in Ht.
    destruct (cycle_body E w) as [[[] | e'] wb]; [discriminate |].
    rewrite isinstance_Exception in Ht. discriminate.
Qed.

(** The loop sleeps 10 seconds once at the start and then
    [CHECK_INTERVAL] seconds after every cycle, once per cycle, whether
    the cycle ran to its end or was cut short by an exception; nothing
    in a cycle sleeps. *)
Theorem loop_sleeps_once_per_cycle (envs : list env) (w : world) :
  sleeps (trace (snd (main envs w))) =
  (sleeps (trace w) ++ 10 :: repeat CHECK_INTERVAL (List.length envs))%list.
Proof.
  assert (H : forall w0,
            sleeps (trace (snd (run_cycles envs w0))) =
            (sleeps (trace w0)
             ++ repeat CHECK_INTERVAL (List.length envs))%list).
  { induction envs as [| E rest IH]; intros w0; simpl.
    - now rewrite app_nil_r.
    - unfold bind. pose proof (cycle_returns E w0) as Hr.
      pose proof (cycle_sleeps E w0) as Hs.
      destruct (cycle E w0) as [r w1]. simpl in Hr, Hs. subst r.
      rewrite IH, Hs, <- app_assoc. reflexivity. }
  unfold main. do 2 (erewrite bind_ok by reflexivity).
  rewrite H. cbn [trace snd emit log].
  rewrite !sleeps_flat_map, !flat_map_app. simpl.
  rewrite app_nil_r, <- app_assoc. reflexivity.
Qed.

(** ** Text *)

Lemma append_nil_r (s : string) : (s ++ "")%string = s.
Proof. induction s; simpl; congruence. Qed.

Lemma append_assoc (a b c : string) :
  ((a ++ b) ++ c)%string = (a ++ (b ++ c))%string.
Proof. induction a; simpl; congruence. Qed.

Lemma length_append (a b : string) :
  String.length (a ++ b) = (String.length a + String.length b)%nat.
Proof. induction a; simpl; congruence. Qed.

Lemma prefix_nil (x : string) : String.prefix "" x = true.
Proof. now destruct x. Qed.

Lemma prefix_app (sep x : string) : String.prefix sep (sep ++ x) = true.
Proof.
  induction sep as [| c sep IH]; simpl; [apply prefix_nil |].
  destruct (ascii_dec c c); [exact IH | congruence].
Qed.

Lemma prefix_long (sep : string) :
  forall a b : string,
    (String.length sep <= String.length a)%nat ->
    String.prefix sep (a ++ b) = String.prefix sep a.
Proof.
  induction sep as [| c sep IH]; intros a b Hlen;
    [now rewrite !prefix_nil |].
  destruct a as [| d a]; simpl in *; [lia |].
  destruct (ascii_dec c d); [apply IH; lia | reflexivity].
Qed.

Lemma contains_eq (sub s : string) :
  contains sub s =
  if String.prefix sub s then true
  else match s with
       | EmptyString => false
       | String _ s' => contains sub s'
       end.
Proof. destruct s; reflexivity. Qed.

Lemma contains_intro (sep x : string) :
  forall p : string, contains sep (p ++ sep ++ x) = true.
Proof.
  induction p as [| c p IH]; rewrite contains_eq.
  - simpl. now rewrite prefix_app.
  - change ((String c p ++ sep ++ x)%string)
      with (String c (p ++ sep ++ x)).
    destruct (String.prefix sep (String c (p ++ sep ++ x)));
      [reflexivity | exact IH].
Qed.

Lemma split_from_head (sep : string) :
  forall s cur, exists y l, split_from sep s 0 cur = (cur ++ y)%string :: l.
Proof.
  induction s as [| c s IH]; intros cur; cbn [split_from].
  - exists "", []. now rewrite append_nil_r.
  - destruct (String.prefix sep (String c s)).
    + exists "". eexists. now rewrite append_nil_r.
    + destruct (IH (cur ++ String c "")%string) as (y & l & H).
      exists (String c y), l. rewrite H, append_assoc. reflexivity.
Qed.

Lemma split_from_skip (sep x : string) :
  forall q cur,
    split_from sep (q ++ x) (String.length q) cur = split_from sep x 0 cur.
Proof.
  induction q as [| c q IH]; intros cur; simpl; [reflexivity | apply IH].
Qed.

Lemma split_none (sep : string) :
  forall s cur,
    contains sep s = false ->
    split_from sep s 0 cur = [(cur ++ s)%string].
Proof.
  induction s as [| c s IH]; intros cur H; cbn [split_from].
  - now rewrite append_nil_r.
  - rewrite contains_eq in H.
    destruct (String.prefix sep (String c s)); [discriminate |].
    rewrite IH by exact H. now rewrite append_assoc.
Qed.

Lemma chop_last (c : ascii) (s : string) :
  exists last,
    String c s = (chop (String c s) ++ String last "")%string /\
    String.length (chop (String c s)) = String.length s.
Proof.
  revert c. induction s as [| d s IH]; intros c.
  - exists c. split; reflexivity.
  - destruct (IH d) as (last & Heq & Hlen).
    exists last. split.
    + change (chop (String c (String d s)))
        with (String c (chop (String d s))).
      change ((String c (chop (String d s)) ++ String last "")%string)
        with (String c (chop (String d s) ++ String last "")).
      now rewrite <- Heq.
    + change (chop (String c (String d s)))
        with (String c (chop (String d s))).
      cbn [String.length]. now rewrite Hlen.
Qed.

(** The first piece of a split ends where the separator first occurs. *)
Lemma split_first (c : ascii) (sep' x : string) :
  forall p cur,
    contains (String c sep') (p ++ chop (String c sep')) = false ->
    split_from (String c sep') (p ++ String c sep' ++ x) 0 cur =
    (cur ++ p)%string :: split_from (String c sep') x 0 "".
Proof.
  set (sep := String c sep').
  induction p as [| d p IH]; intros cur H.
  - change ("" ++ sep ++ x)%string with (String c (sep' ++ x)).
    cbn [split_from].
    change (String c (sep' ++ x)) with (sep ++ x)%string.
    rewrite prefix_app. rewrite append_nil_r.
    change (String.length sep - 1)%nat with (String.length sep' - 0)%nat.
    rewrite Nat.sub_0_r, split_from_skip. reflexivity.
  - rewrite contains_eq in H.
    destruct (String.prefix sep ((String d p ++ chop sep)%string))
      eqn:Hpre; [discriminate |].
    change ((String d p ++ sep ++ x)%string)
      with (String d (p ++ sep ++ x)).
    cbn [split_from].
    assert (Hno : String.prefix sep (String d (p ++ sep ++ x)) = false).
    { destruct (chop_last c sep') as (last & Heq & Hlen). fold sep in Heq, Hlen.
      rewrite Heq at 2. rewrite append_assoc.
      change (String d (p ++ chop sep ++ String last "" ++ x))
        with (String d p ++ (chop sep ++ String last "" ++ x))%string.
      rewrite <- append_assoc, prefix_long; [exact Hpre |].
      rewrite length_append, Hlen. unfold sep. simpl. lia. }
    rewrite Hno, IH by exact H. now rewrite append_assoc.
Qed.

Lemma str_rev_app (a b : string) :
  str_rev (a ++ b) = (str_rev b ++ str_rev a)%string.
Proof.
  induction a as [| c a IH]; simpl.
  - now rewrite append_nil_r.
  - now rewrite IH, append_assoc.
Qed.

Lemma str_rev_involutive (s : string) : str_rev (str_rev s) = s.
Proof.
  induction s as [| c s IH]; simpl; [reflexivity |].
  rewrite str_rev_app, IH. reflexivity.
Qed.

Lemma lstrip_keep (c : ascii) (t : string) :
  is_space c = false ->
  forall x, exists y, lstrip (x ++ String c t) = (y ++ String c t)%string.
Proof.
  intros Hc. induction x as [| d x IH]; simpl.
  - rewrite Hc. now exists "".
  - destruct (is_space d); [exact IH |].
    now exists (String d x).
Qed.

(** [strip] leaves a text alone up to its last character that is not
    white space. *)
Lemma rstrip_keep (c : ascii) (a s : string) :
  is_space c = false ->
  exists z, rstrip (a ++ String c s) = (a ++ String c z)%string.
Proof.
  intros Hc. unfold rstrip.
  rewrite str_rev_app. simpl. rewrite append_assoc. simpl.
  destruct (lstrip_keep c (str_rev a) Hc (str_rev s)) as (y & Hy).
  rewrite Hy, str_rev_app. simpl.
  rewrite str_rev_involutive, append_assoc. simpl.
  now exists (str_rev y).
Qed.

(** ** Reading the output of [ping] *)

(** The summary of BusyBox [ping], [min/avg/max = a/b/c ms]: when the
    marker occurs once and the first two columns hold no slash, the
    latency read is the second column, the average. *)
Theorem busybox_summary_gives_average (header mn avg rest : string) :
  contains "min/avg/max" (header ++ "min/avg/ma") = false ->
  contains "min/avg/max" (" = " ++ mn ++ "/" ++ avg ++ "/" ++ rest) = false ->
  contains "/" mn = false ->
  contains "/" avg = false ->
  parse_ping_output
    (header ++ "min/avg/max = " ++ mn ++ "/" ++ avg ++ "/" ++ rest) =
  (let? avg_time := float (strip avg) in Ok (Some avg_time)).
Proof.
  intros Hfirst Honce Hmn Havg.
  set (tail := (" = " ++ mn ++ "/" ++ avg ++ "/" ++ rest)%string) in *.
  change (header ++ "min/avg/max = " ++ mn ++ "/" ++ avg ++ "/" ++ rest)%string
    with (header ++ "min/avg/max" ++ tail)%string.
  unfold parse_ping_output.
  rewrite contains_intro.
  unfold split.
  rewrite (split_first "m" "in/avg/max" tail header "" Hfirst).
  rewrite (split_none "min/avg/max" tail "" Honce).
  cbn [getitem nth_error rbind append].
  (* the text after the marker, stripped *)
  assert (Hparts : exists z,
            strip tail = (("= " ++ mn) ++ "/" ++ avg ++ "/" ++ z)%string).
  { unfold strip, tail.
    change (lstrip (" = " ++ mn ++ "/" ++ avg ++ "/" ++ rest))
      with (("= " ++ mn) ++ "/" ++ avg ++ String "/" rest)%string.
    replace (("= " ++ mn) ++ "/" ++ avg ++ String "/" rest)%string
      with ((("= " ++ mn) ++ "/" ++ avg) ++ String "/" rest)%string
      by (now rewrite !append_assoc).
    destruct (rstrip_keep "/" (("= " ++ mn) ++ "/" ++ avg) rest eq_refl)
      as (z & Hz).
    exists z. rewrite Hz. now rewrite !append_assoc. }
  destruct Hparts as (z & Hz). rewrite Hz.
  rewrite contains_intro.
  rewrite (split_first "/" "" (avg ++ "/" ++ z) ("= " ++ mn) "").
  2:{ cbn [chop]. rewrite append_nil_r. exact Hmn. }
  rewrite (split_first "/" "" z avg "").
  2:{ cbn [chop]. rewrite append_nil_r. exact Havg. }
  reflexivity.
Qed.

Lemma busybox_summary_gives_average_witness :
  parse_ping_output
    ("3 packets transmitted, 3 packets received, 0% packet loss
round-trip " ++ "min/avg/max = " ++ "1.000" ++ "/" ++ "12.300" ++ "/"
       ++ "900.000 ms") =
  (let? avg_time := float (strip "12.300") in Ok (Some avg_time)).
Proof.
  apply busybox_summary_gives_average; vm_compute; reflexivity.
Defined.

Lemma strip_of_m (s : string) :
  exists z, strip (String "m" s) = String "m" z.
Proof.
  unfold strip. change (lstrip (String "m" s)) with (String "m" s).
  destruct (rstrip_keep "m" "" s eq_refl) as (z & Hz).
  exists z. exact Hz.
Qed.

Lemma float_of_m (s : string) : float (String "m" s) = Raise ValueError.
Proof.
  destruct (strip_of_m s) as (z & Hz).
  unfold float. rewrite Hz. reflexivity.
Qed.

(** The summary of iputils [ping], [min/avg/max/mdev = a/b/c/d ms]: the
    text read as the latency is [mdev = a], which is no number, so the
    extraction raises [ValueError] whatever the four values are, and a
    host that answered counts with the fallback of 1000 ms. *)
Theorem iputils_summary_falls_back
  (E : env) (host header rest : string) :
  contains "min/avg/max" (header ++ "min/avg/ma") = false ->
  ping E 3 host = Completed 0 (header ++ "min/avg/max/mdev" ++ rest) ->
  parse_ping_output (header ++ "min/avg/max/mdev" ++ rest)
    = Raise ValueError /\
  sample E host = Ok (Some (of_Z 1000)).
Proof.
  intros Hfirst Hping.
  assert (Hparse : parse_ping_output (header ++ "min/avg/max/mdev" ++ rest)
                   = Raise ValueError).
  { change (header ++ "min/avg/max/mdev" ++ rest)%string
      with (header ++ "min/avg/max" ++ (String "/" (String "m"
              ("dev" ++ rest))))%string.
    unfold parse_ping_output.
    rewrite contains_intro. unfold split.
    rewrite (split_first "m" "in/avg/max" _ header "" Hfirst).
    cbn [split_from String.prefix ascii_dec Ascii.ascii_rec Ascii.ascii_rect
           Bool.bool_dec bool_rec bool_rect sumbool_rec sumbool_rect
           eq_rec_r eq_rec eq_rect eq_sym f_equal append].
    destruct (split_from_head "min/avg/max" ("dev" ++ rest) "/m")
      as (y & l & Hsplit).
    match goal with
    | |- context [split_from "min/avg/max" ?s 0 ?cur] =>
        change (split_from "min/avg/max" s 0 cur)
          with (split_from "min/avg/max" ("dev" ++ rest) 0 "/m")
    end.
    rewrite Hsplit. cbn [getitem nth_error rbind append].
    unfold strip. change (lstrip (String "/" (String "m" y)))
      with (String "/" (String "m" y)).
    destruct (rstrip_keep "m" "/" y eq_refl) as (z & Hz).
    change ("/" ++ String "m" y)%string with (String "/" (String "m" y)) in Hz.
    rewrite Hz.
    change ("/" ++ String "m" z)%string with (String "/" (String "m" z)).
    change (contains "/" (String "/" (String "m" z))) with true.
    cbv iota.
    destruct (split_from_head "/" z "m") as (y' & l' & Hsplit').
    change (split_from "/" (String "/" (String "m" z)) 0 "")
      with ("" :: split_from "/" z 0 "m").
    rewrite Hsplit'. cbn [getitem nth_error rbind append].
    destruct (strip_of_m y') as (z' & Hz').
    change ("m" ++ y')%string with (String "m" y').
    unfold strip in Hz'. rewrite Hz'.
    rewrite float_of_m. reflexivity. }
  split; [exact Hparse |].
  unfold sample. rewrite Hping, Hparse. reflexivity.
Qed.

Lemma iputils_summary_falls_back_witness :
  parse_ping_output
    ("3 packets transmitted, 3 received, 0% packet loss, time 2003ms
rtt " ++ "min/avg/max/mdev" ++ " = 10.100/12.300/15.000/1.200 ms
") = Raise ValueError /\
  sample Sample.iputils_env "1.1.1.1" = Ok (Some (of_Z 1000)).
Proof.
  apply (iputils_summary_falls_back Sample.iputils_env "1.1.1.1");
    vm_compute; reflexivity.
Defined.

(** The summary of Windows [ping], [Average = n ms]: when the text has
    no [min/avg/max], [Average =] occurs once and no [ms] comes before
    the one that ends the number, the latency read is the number. *)
Theorem windows_summary_gives_average (header n rest : string) :
  contains "min/avg/max" (header ++ "Average =" ++ n ++ "ms" ++ rest)
    = false ->
  contains "Average =" (header ++ "Average ") = false ->
  contains "Average =" (n ++ "ms" ++ rest) = false ->
  contains "ms" (n ++ "m") = false ->
  parse_ping_output (header ++ "Average =" ++ n ++ "ms" ++ rest) =
  (let? avg_time := float (strip n) in Ok (Some avg_time)).
Proof.
  intros Hlinux Hfirst Honce Hn.
  unfold parse_ping_output. rewrite Hlinux.
  change (header ++ "Average =" ++ n ++ "ms" ++ rest)%string
    with (header ++ "Average" ++ (" =" ++ n ++ "ms" ++ rest))%string at 1.
  rewrite contains_intro. unfold split.
  rewrite (split_first "A" "verage =" (n ++ "ms" ++ rest) header "" Hfirst).
  rewrite (split_none "Average =" _ "" Honce).
  cbn [getitem nth_error rbind append].
  pose proof (split_first "m" "s" rest n "" Hn) as Hs.
  cbn [append] in Hs. rewrite Hs.
  reflexivity.
Qed.

Lemma windows_summary_gives_average_witness :
  parse_ping_output
    ("Approximate round trip times in milli-seconds:
    Minimum = 10ms, Maximum = 12ms, " ++ "Average =" ++ " 11" ++ "ms"
       ++ "
") =
  (let? avg_time := float (strip " 11") in Ok (Some avg_time)).
Proof.
  apply windows_summary_gives_average; vm_compute; reflexivity.
Defined.

(** ** The state and the daemon *)

(** What a cycle records of the network does not depend on the daemon,
    even when a call of the gateway raises: after a failed pre-check,
    not online, tier offline, one more reconnect attempt, and the time
    last online as it was; after a measurement, online, the time of the
    cycle, the measured tier (offline included) and no reconnect
    attempts. *)
Theorem network_fields_ignore_daemon (E : env) (w : world) :
  let s := ns w in
  let s' := ns (snd (cycle E w)) in
  match precheck E with
  | Ok false =>
      is_online s' = false /\ last_online s' = last_online s /\
      connection_quality s' = offline /\
      reconnect_count s' = reconnect_count s + 1
  | Ok true =>
      match measured E with
      | Ok q =>
          is_online s' = true /\ last_online s' = clock E /\
          connection_quality s' = q /\ reconnect_count s' = 0
      | Raise _ => s' = s
      end
  | Raise _ => s' = s
  end.
Proof.
  cbv zeta. rewrite cycle_state_eq. unfold cycle_state, adjust_state.
  destruct (precheck E) as [[|] | e]; [| | reflexivity].
  - destruct (measured E) as [[| | |] | e]; try reflexivity;
      try (repeat split; reflexivity).
    destruct (gateway_reply E "torrent-stop"); repeat split; reflexivity.
  - destruct (gateway_reply E "torrent-stop"); repeat split; reflexivity.
Qed.

(** A cycle calls the gateway at most three times, and not at all when
    an exception ends it before the link is classified. *)
Theorem cycle_calls_gateway_at_most_thrice (E : env) (w : world) :
  exists calls,
    gateway_calls (trace (snd (cycle E w))) =
    (gateway_calls (trace w) ++ calls)%list /\
    (List.length calls <= 3)%nat /\
    (classification E = None -> calls = []).
Proof.
  exists (cycle_calls E). split; [apply cycle_calls_eq |].
  unfold cycle_calls, classification, adjust_calls, adjust_result.
  destruct (precheck E) as [[|] | e].
  - destruct (measured E) as [[| | |] | e];
      repeat match goal with
             | |- context [gateway_reply E ?m] =>
                 destruct (gateway_reply E m)
             end; simpl; split; auto; try lia; discriminate.
  - destruct (gateway_reply E "torrent-stop"); simpl; split; auto;
      try lia; discriminate.
  - simpl. split; auto.
Qed.

Lemma cycle_calls_gateway_at_most_thrice_witness :
  exists calls,
    gateway_calls (trace (snd (cycle Sample.no_ping_env Sample.start))) =
    (gateway_calls (trace Sample.start) ++ calls)%list /\
    (List.length calls <= 3)%nat /\
    (classification Sample.no_ping_env = None -> calls = []).
Proof.
  apply (cycle_calls_gateway_at_most_thrice Sample.no_ping_env Sample.start).
Defined.
